(** * svg-to-dia: a shallow embedding of [svg-to-dia.py]

    The script turns a list of vector images into a Dia sheet: one thumbnail,
    one copy of the source and one shape descriptor per image, and one sheet
    descriptor for the lot.  This file embeds the script function by function
    ([build_sheet], [build_shape], [main]) together with the parts of the
    Python library the script leans on (integers and strings, [pathlib],
    [xml.etree.ElementTree], [subprocess]), and proves the properties of the
    design document against that embedding. *)

From Stdlib Require Import ZArith Ascii String DecimalString DecimalZ Lia.
From stdpp Require Import gmap strings list.

Local Open Scope Z_scope.
Set Warnings "-register-all,-clear-no-such-hyp".

(** ** Python values *)

Module Py.

(** [str(n)] for an [int]: decimal digits, a leading minus sign for
    negative numbers, ["0"] for zero. *)
Definition str (n : Z) : string := NilZero.string_of_int (Z.to_int n).

(** Truth value of a [str] in a condition: the empty string is false. *)
Definition truthy (s : string) : bool :=
  match s with EmptyString => false | String _ _ => true end.

(** The whitespace of [str.split()] and [str.strip()], on the ASCII range:
    tab, line feed, vertical tab, form feed, carriage return, the four
    separators 0x1c to 0x1f, and space. *)
Definition isspace (c : ascii) : bool :=
  let n := nat_of_ascii c in
  ((9 <=? n) && (n <=? 13) || (28 <=? n) && (n <=? 32))%nat.

(** [s.split()]: the maximal runs of characters that are not whitespace.
    [cur] holds the run being read, in reverse. *)
Fixpoint split_go (cur : list ascii) (s : string) : list string :=
  let flush (k : list string) :=
    match cur with
    | [] => k
    | _ :: _ => string_of_list_ascii (rev cur) :: k
    end in
  match s with
  | EmptyString => flush []
  | String c s' =>
      if isspace c then flush (split_go [] s') else split_go (c :: cur) s'
  end.

Definition split (s : string) : list string := split_go [] s.

Definition isdigit (c : ascii) : bool :=
  let n := nat_of_ascii c in ((48 <=? n) && (n <=? 57))%nat.

(** The digit part of an integer literal as [int()] reads it: digits, with
    single underscores allowed between two digits.  [after_digit] tells
    whether the previous character was a digit.  The result is the digit
    string with the underscores removed. *)
Fixpoint digits_go (after_digit : bool) (s : string) : option string :=
  match s with
  | EmptyString => if after_digit then Some EmptyString else None
  | String c s' =>
      if isdigit c then String c <$> digits_go true s'
      else if Ascii.eqb c "_" then
        if after_digit then
          match s' with
          | String d _ => if isdigit d then digits_go false s' else None
          | EmptyString => None
          end
        else None
      else None
  end.

Definition nat_digits (s : string) : option Z :=
  d ← digits_go false s;
  Z.of_uint <$> NilZero.uint_of_string d.

Fixpoint lstrip (s : string) : string :=
  match s with
  | String c s' => if isspace c then lstrip s' else s
  | EmptyString => EmptyString
  end.

Fixpoint rstrip (s : string) : string :=
  match s with
  | String c s' =>
      match rstrip s' with
      | EmptyString => if isspace c then EmptyString else String c EmptyString
      | r => String c r
      end
  | EmptyString => EmptyString
  end.

Definition strip (s : string) : string := rstrip (lstrip s).

(** [int(s)] for a [str]: surrounding whitespace is dropped, one sign is
    allowed, and what is left must be a digit part.  [None] stands for
    [ValueError]. *)
Definition int (s : string) : option Z :=
  match strip s with
  | String c s' =>
      if Ascii.eqb c "+" then nat_digits s'
      else if Ascii.eqb c "-" then Z.opp <$> nat_digits s'
      else nat_digits (String c s')
  | EmptyString => None
  end.

(** [all(p(c) for c in s)]. *)
Fixpoint all (p : ascii -> bool) (s : string) : bool :=
  match s with
  | EmptyString => true
  | String c s' => p c && all p s'
  end.

(** A [dict] with string keys: insertion order is kept, assigning to a key
    that is present replaces its value in place. *)
Definition dict (V : Type) : Type := list (string * V).

Fixpoint setitem {V} (d : dict V) (k : string) (v : V) : dict V :=
  match d with
  | [] => [(k, v)]
  | (k', v') :: d' =>
      if decide (k = k') then (k, v) :: d' else (k', v') :: setitem d' k v
  end.

Fixpoint getitem {V} (d : dict V) (k : string) : option V :=
  match d with
  | [] => None
  | (k', v') :: d' => if decide (k = k') then Some v' else getitem d' k
  end.

Definition items {V} (d : dict V) : list (string * V) := d.

Definition keys {V} (d : dict V) : list string := d.*1.

(** A [dict] display [{k1: v1, ..., kn: vn}]. *)
Definition literal {V} (l : list (string * V)) : dict V :=
  foldl (fun d kv => setitem d kv.1 kv.2) [] l.

End Py.

(** ** [pathlib]: pure POSIX paths *)

Module PurePath.

(** A parsed path: the root (empty, ["/"] or ["//"]) and the components
    after it.  Empty components and ["."] are dropped when a path is
    parsed, [".."] is kept. *)
Record Path : Type := mkPath { root : string; parts : list string }.

(** [s.split('/')]. *)
Fixpoint split_sep (s : string) : list string :=
  match s with
  | EmptyString => [EmptyString]
  | String c s' =>
      if Ascii.eqb c "/" then EmptyString :: split_sep s'
      else match split_sep s' with
           | h :: t => String c h :: t
           | [] => [String c EmptyString]
           end
  end.

(** [s[i:i+1] == '/']. *)
Definition sep_at (i : nat) (s : string) : bool :=
  match String.get i s with
  | Some c => Ascii.eqb c "/"
  | None => false
  end.

(** [posixpath.splitroot], the root only: no root without a leading
    slash; two leading slashes are kept as they are, one or three and
    more make the root ["/"]. *)
Definition splitroot (s : string) : string :=
  if negb (sep_at 0 s) then ""
  else if negb (sep_at 1 s) || sep_at 2 s then "/"
  else "//".

Definition kept (x : string) : bool :=
  Py.truthy x && negb (String.eqb x ".").

(** [Path(s)]. *)
Definition of_string (s : string) : Path :=
  mkPath (splitroot s) (filter (fun x => kept x = true) (split_sep s)).

(** ["/".join(l)]. *)
Fixpoint join_sep (l : list string) : string :=
  match l with
  | [] => ""
  | [x] => x
  | x :: l' => x +:+ "/" +:+ join_sep l'
  end.

(** [str(p)]: the path without a root and without components is ["."]. *)
Definition to_string (p : Path) : string :=
  match root p, parts p with
  | EmptyString, [] => "."
  | r, l => r +:+ join_sep l
  end.

(** [p.name]: the last component, empty when there is none. *)
Definition name (p : Path) : string := List.last (parts p) "".

(** [s.rfind('.')], [None] for -1. *)
Fixpoint rfind_dot (s : string) : option nat :=
  match s with
  | EmptyString => None
  | String c s' =>
      match rfind_dot s' with
      | Some i => Some (S i)
      | None => if Ascii.eqb c "." then Some O else None
      end
  end.

(** [p.stem]: the name without its last suffix.  A leading dot and a
    trailing dot do not start a suffix. *)
Definition stem (p : Path) : string :=
  let n := name p in
  match rfind_dot n with
  | Some i =>
      if ((0 <? i) && (i <? String.length n - 1))%nat
      then String.substring 0 i n else n
  | None => n
  end.

(** [p.joinpath(s)]: a segment with a root replaces the path. *)
Definition joinpath (p : Path) (s : string) : Path :=
  let q := of_string s in
  match root q with
  | EmptyString => mkPath (root p) (parts p ++ parts q)
  | _ => q
  end.

End PurePath.

(** ** [xml.etree.ElementTree] *)

Module ET.

(** Elements are mutable objects: [SubElement] hands back a child that is
    already linked into its parent, and the script goes on to set the
    text, the attributes and the children of that child.  The store keeps
    one node per element created, in creation order; an element is the
    index of its node, and a node lists its children by index.  The tail
    text of an element is never set by the script and is left out. *)
Record Node : Type := mkNode {
  tag : string;
  attrib : Py.dict string;
  text : option string;
  children : list nat
}.

Abbreviation Store := (list Node).

(** Computations on the store. *)
Definition M (A : Type) : Type := Store -> A * Store.

Definition ret {A} (a : A) : M A := fun h => (a, h).

Definition bind {A B} (m : M A) (k : A -> M B) : M B :=
  fun h => let (a, h') := m h in k a h'.

#[global] Instance M_ret : MRet M := @ret.
#[global] Instance M_bind : MBind M := fun A B k m => bind m k.

Definition set_node (f : Node -> Node) (id : nat) : M unit :=
  fun h => (tt, alter f id h).

(** [ET.Element(tag, attrib=...)]. *)
Definition Element (t : string) (a : Py.dict string) : M nat :=
  fun h => (length h, h ++ [mkNode t a None []]).

(** [parent.append(child)]. *)
Definition append (parent child : nat) : M unit :=
  set_node (fun n => mkNode (tag n) (attrib n) (text n) (children n ++ [child]))
           parent.

(** [ET.SubElement(parent, tag, attrib=...)]: make the element, then
    append it to the parent. *)
Definition SubElement (parent : nat) (t : string) (a : Py.dict string) : M nat :=
  child ← Element t a; append parent child;; mret child.

(** [elem.text = s]. *)
Definition set_text (id : nat) (s : string) : M unit :=
  set_node (fun n => mkNode (tag n) (attrib n) (Some s) (children n)) id.

(** [elem.attrib[k] = v]. *)
Definition set_attrib (id : nat) (k v : string) : M unit :=
  set_node (fun n => mkNode (tag n) (Py.setitem (attrib n) k v) (text n) (children n))
           id.

(** A [for] loop over a list. *)
Fixpoint for_each {A} (l : list A) (body : A -> M unit) : M unit :=
  match l with
  | [] => mret tt
  | x :: l' => body x;; for_each l' body
  end.

(** The tree below an element, as [tostring] and every reader walk it. *)
Inductive Tree : Type :=
  Elem (t : string) (a : Py.dict string) (x : option string) (c : list Tree).

Definition tree_tag (e : Tree) : string := let (t, _, _, _) := e in t.
Definition tree_attrib (e : Tree) : Py.dict string := let (_, a, _, _) := e in a.
Definition tree_text (e : Tree) : option string := let (_, _, x, _) := e in x.
Definition tree_children (e : Tree) : list Tree := let (_, _, _, c) := e in c.

(** Reading the tree off the store.  The fuel bounds the depth: a store
    whose links form a cycle has no tree, and walking it would not end. *)
Fixpoint tree_of (fuel : nat) (h : Store) (id : nat) : option Tree :=
  match fuel with
  | O => None
  | S fuel' =>
      n ← h !! id;
      c ← mapM (tree_of fuel' h) (children n);
      Some (Elem (tag n) (attrib n) (text n) c)
  end.

(** Run a builder in an empty store and read the tree of its result. *)
Definition run (m : M nat) : option Tree :=
  let (id, h) := m [] in tree_of (length h) h id.

(** [s.replace(c, r)] for a one-character [c]. *)
Fixpoint replace (c : ascii) (r : string) (s : string) : string :=
  match s with
  | EmptyString => EmptyString
  | String d s' =>
      if Ascii.eqb d c then r +:+ replace c r s' else String d (replace c r s')
  end.

Definition dquote : ascii := "034".
Definition tab : ascii := "009".
Definition lf : ascii := "010".
Definition cr : ascii := "013".

(** [_escape_cdata]. *)
Definition escape_cdata (s : string) : string :=
  replace ">" "&gt;" (replace "<" "&lt;" (replace "&" "&amp;" s)).

(** [_escape_attrib]. *)
Definition escape_attrib (s : string) : string :=
  replace tab "&#09;"
    (replace lf "&#10;"
      (replace cr "&#13;"
        (replace dquote "&quot;"
          (replace ">" "&gt;" (replace "<" "&lt;" (replace "&" "&amp;" s)))))).

Definition concat_strings (l : list string) : string :=
  foldr String.append EmptyString l.

Definition serialize_attr (kv : string * string) : string :=
  " " +:+ kv.1 +:+ "=" +:+ String dquote (escape_attrib kv.2 +:+ String dquote "").

Definition text_truthy (x : option string) : bool :=
  match x with Some s => Py.truthy s | None => false end.

(** [_serialize_xml] with [short_empty_elements=True], for tags and
    attribute names in no namespace (none starts with a brace): they are
    written as they are.  An element without text and without children is
    written in the short form. *)
Fixpoint serialize (e : Tree) : string :=
  match e with
  | Elem t a x c =>
      "<" +:+ t +:+ concat_strings (map serialize_attr (Py.items a)) +:+
      (if text_truthy x || negb (bool_decide (c = []))
       then ">" +:+ (match x with Some s => escape_cdata s | None => "" end) +:+
            concat_strings (map serialize c) +:+ "</" +:+ t +:+ ">"
       else " />")
  end.

(** [ET.tostring(elem, encoding='unicode')]: no XML declaration. *)
Definition tostring (e : Tree) : string := serialize e.

(** Reading a tree, as a caller of the library would: [elem.find(t)] is
    the first child with tag [t], [elem.findall(t)] all of them in order,
    [elem.get(k)] the value of attribute [k], and [elem.findtext(t)] the
    text of the first child with tag [t], empty when it has none. *)
Definition find (t : string) (e : Tree) : option Tree :=
  List.find (fun c => String.eqb (tree_tag c) t) (tree_children e).

Definition findall (t : string) (e : Tree) : list Tree :=
  List.filter (fun c => String.eqb (tree_tag c) t) (tree_children e).

Definition get (k : string) (e : Tree) : option string :=
  Py.getitem (tree_attrib e) k.

Definition findtext (t : string) (e : Tree) : option string :=
  c ← find t e; Some (default "" (tree_text c)).

End ET.

(** ** The script *)

(** [class Sheet]. *)
Record Sheet : Type := mkSheet {
  name : string;
  author : string;
  description : string;
  objects : Py.dict string
}.

Definition build_sheet (sheet : Sheet) : ET.M nat :=
  (xsheet ← ET.Element "sheet"
     (Py.literal [("xmlns", "http://www.lysator.liu.se/~alla/dia/dia-sheet-ns")]);
   (if Py.truthy (name sheet)
    then (x ← ET.SubElement xsheet "name" []; ET.set_text x (name sheet))
    else mret tt);;
   (if Py.truthy (author sheet)
    then (x ← ET.SubElement xsheet "created_by" []; ET.set_text x (author sheet))
    else mret tt);;
   (if Py.truthy (description sheet)
    then (x ← ET.SubElement xsheet "description" []; ET.set_text x (description sheet))
    else mret tt);;
   xcontents ← ET.SubElement xsheet "contents" [];
   ET.for_each (Py.items (objects sheet)) (fun '(oname, odescription) =>
     xobj ← ET.SubElement xcontents "object" [];
     ET.set_attrib xobj "name" oname;;
     x ← ET.SubElement xobj "description" [];
     ET.set_text x odescription);;
   mret xsheet).

Definition build_shape (svg_path : PurePath.Path) (width height : Z) : ET.M nat :=
  (let attrib := Py.literal [
       ("xmlns:svg", "http://www.w3.org/2000/svg");
       ("xmlns:xlink", "http://www.w3.org/1999/xlink");
       ("xmlns", "http://www.daa.com.au/~james/dia-shape-ns")] in
   xshape ← ET.Element "shape" attrib;
   x ← ET.SubElement xshape "name" [];
   ET.set_text x (PurePath.stem svg_path);;
   x ← ET.SubElement xshape "icon" [];
   ET.set_text x (PurePath.stem svg_path +:+ ".png");;
   xconns ← ET.SubElement xshape "connections" [];
   let points := [
       (0, 0);
       (0, width / 2);
       (0, width);
       (height / 2, 0);
       (height, 0);
       (width / 2, height);
       (width / 2, height / 2);
       (width, height / 2);
       (width, height)] in
   ET.for_each points (fun '(x, y) =>
     _ ← ET.SubElement xconns "point"
            (Py.literal [("x", Py.str x); ("y", Py.str y)]);
     mret tt);;
   _ ← ET.SubElement xshape "aspectratio" (Py.literal [("type", "fixed")]);
   xsvg ← ET.SubElement xshape "svg:svg" [];
   _ ← ET.SubElement xsvg "svg:image"
          (Py.literal [
             ("xlink:href", PurePath.stem svg_path +:+ ".svg");
             ("x", "0");
             ("y", "0");
             ("width", Py.str width);
             ("height", Py.str height)]);
   mret xshape).

(** ** The run and its surroundings *)

(** The exceptions the script can end with; none is caught. *)
Inductive Exception : Type :=
| CalledProcessError (returncode : Z) (cmd : list string)
| ValueError
| FileNotFoundError (filename : string)
| RecursionError.

Inductive Result (A : Type) : Type :=
| Ok (a : A)
| Raise (e : Exception).
Arguments Ok {A} a.
Arguments Raise {A} e.

(** The parsed command line: [--name], the positional [svg_file] list and
    the count of [-v] flags ([None] when the flag is absent). *)
Record Args : Type := mkArgs {
  arg_name : string;
  svg_file : list string;
  verbosity : option Z
}.

(** The two ImageMagick commands and the login name are outside the script.
    [convert] is given its argument vector and the files; it answers with
    its exit status and with the image it leaves at its output path (its
    last argument), if any.  [identify] answers with its exit status and
    its standard output. *)
Record Backend : Type := mkBackend {
  convert : list string -> gmap string string -> Z * option string;
  identify : list string -> gmap string string -> Z * string;
  getuser : string
}.

(** What the run can touch: the files, by path as written (directories,
    links and permissions are not modelled, so a write always goes through
    and a read fails only for a path with no file), and the lines printed. *)
Record World : Type := mkWorld {
  files : gmap string string;
  stdout : list string
}.

(** The state of [main]: its variables [seen] and [sheet], and the world. *)
Record Frame : Type := mkFrame {
  seen : gset string;
  sheet : Sheet;
  world : World
}.

Definition Run (A : Type) : Type := Frame -> Result A * Frame.

#[global] Instance Run_ret : MRet Run := fun A a f => (Ok a, f).
#[global] Instance Run_bind : MBind Run := fun A B k m f =>
  match m f with
  | (Ok a, f') => k a f'
  | (Raise e, f') => (Raise e, f')
  end.

Definition raise {A} (e : Exception) : Run A := fun f => (Raise e, f).

Definition get_frame : Run Frame := fun f => (Ok f, f).

Definition set_files (fs : gmap string string) : Run unit :=
  fun f => (Ok tt, mkFrame (seen f) (sheet f) (mkWorld fs (stdout (world f)))).

(** [print(msg)]. *)
Definition print (msg : string) : Run unit :=
  fun f => (Ok tt, mkFrame (seen f) (sheet f)
                     (mkWorld (files (world f)) (stdout (world f) ++ [msg]))).

(** [_verbose_print], as [main] defines it from [args.verbosity]: the
    do-nothing function when the count is absent (or zero), else the
    function that prints its second argument when its first exceeds
    [1 - args.verbosity]. *)
Definition verbose_print (args : Args) (level : Z) (msg : string) : Run unit :=
  match verbosity args with
  | Some v =>
      if bool_decide (v = 0) then mret tt
      else if bool_decide (level > 1 - v) then print msg else mret tt
  | None => mret tt
  end.

(** [subprocess.check_call] on the rasterizer: the command runs, whatever
    it leaves at its output path is there afterwards, and a status other
    than zero raises. *)
Definition check_call_convert (b : Backend) (cmd : list string) : Run unit :=
  f ← get_frame;
  let (rc, out) := convert b cmd (files (world f)) in
  match out with
  | Some img => set_files (<[List.last cmd "" := img]> (files (world f)))
  | None => mret tt
  end;;
  if bool_decide (rc = 0) then mret tt else raise (CalledProcessError rc cmd).

(** [subprocess.check_output] on the introspection command. *)
Definition check_output_identify (b : Backend) (cmd : list string) : Run string :=
  f ← get_frame;
  let (rc, out) := identify b cmd (files (world f)) in
  if bool_decide (rc = 0) then mret out else raise (CalledProcessError rc cmd).

(** [width, height = map(int, out.decode().split())]: exactly two fields,
    both integers, else [ValueError]. *)
Definition unpack_dimensions (out : string) : Run (Z * Z) :=
  match Py.split out with
  | [a; b] =>
      match Py.int a, Py.int b with
      | Some w, Some h => mret (w, h)
      | _, _ => raise ValueError
      end
  | _ => raise ValueError
  end.

(** [p.read_bytes()]. *)
Definition read_bytes (p : PurePath.Path) : Run string :=
  f ← get_frame;
  match files (world f) !! PurePath.to_string p with
  | Some data => mret data
  | None => raise (FileNotFoundError (PurePath.to_string p))
  end.

(** [p.write_bytes(data)] and [p.write_text(data)]. *)
Definition write (p : PurePath.Path) (data : string) : Run unit :=
  f ← get_frame;
  set_files (<[PurePath.to_string p := data]> (files (world f))).

(** [seen.add(s)]. *)
Definition seen_add (s : string) : Run unit :=
  fun f => (Ok tt, mkFrame ({[s]} ∪ seen f) (sheet f) (world f)).

(** [sheet.objects[k] = v]. *)
Definition objects_setitem (k v : string) : Run unit :=
  fun f =>
    let s := sheet f in
    (Ok tt, mkFrame (seen f)
              (mkSheet (name s) (author s) (description s) (Py.setitem (objects s) k v))
              (world f)).

(** [ET.tostring] of the element a builder returns. *)
Definition tostring_built (m : ET.M nat) : Run string :=
  match ET.run m with
  | Some t => mret (ET.tostring t)
  | None => raise RecursionError
  end.

Definition psheets : PurePath.Path := PurePath.of_string "sheets".

Definition pshapes (args : Args) : PurePath.Path :=
  PurePath.of_string ("shapes/" +:+ arg_name args).

(** The three files written for a stem. *)
Definition png_file (args : Args) (stem : string) : string :=
  PurePath.to_string (pshapes args) +:+ "/" +:+ stem +:+ ".png".

Definition new_path (args : Args) (stem : string) : PurePath.Path :=
  PurePath.joinpath (pshapes args) (stem +:+ ".svg").

Definition shape_path (args : Args) (stem : string) : PurePath.Path :=
  PurePath.joinpath (pshapes args) (stem +:+ ".shape").

Definition sheet_path (args : Args) : PurePath.Path :=
  PurePath.joinpath psheets (arg_name args +:+ ".sheet").

Definition convert_cmd (args : Args) (svg : PurePath.Path) : list string :=
  ["convert"; PurePath.to_string svg; "-resize"; "22x22";
   png_file args (PurePath.stem svg)].

Definition identify_cmd (args : Args) (stem : string) : list string :=
  ["identify"; "-format"; "%w %h"; png_file args stem].

(** The body of the loop of [main] for one command-line path. *)
Definition process (b : Backend) (args : Args) (svg_file : string) : Run unit :=
  let svg_file := PurePath.of_string svg_file in
  let stem := PurePath.stem svg_file in
  f ← get_frame;
  if bool_decide (stem ∈ seen f) then
    verbose_print args 2 ("WARN: ignoring duplicate " +:+ stem)
  else
    seen_add stem;;
    check_call_convert b (convert_cmd args svg_file);;
    verbose_print args 1 ("INFO: wrote " +:+ png_file args stem);;
    out ← check_output_identify b (identify_cmd args stem);
    '(width, height) ← unpack_dimensions out;
    data ← read_bytes svg_file;
    write (new_path args stem) data;;
    verbose_print args 1 ("INFO: wrote " +:+ PurePath.to_string (new_path args stem));;
    tshape ← tostring_built (build_shape svg_file width height);
    write (shape_path args stem) tshape;;
    verbose_print args 1 ("INFO: wrote " +:+ PurePath.to_string (shape_path args stem));;
    objects_setitem stem ("description " +:+ stem).

(** [for svg_file in args.svg_file: ...]. *)
Fixpoint loop (b : Backend) (args : Args) (l : list string) : Run unit :=
  match l with
  | [] => mret tt
  | x :: l' => process b args x;; loop b args l'
  end.

(** What follows the loop: the sheet is built, serialized and written. *)
Definition emit_sheet (args : Args) : Run unit :=
  f ← get_frame;
  tsheet ← tostring_built (build_sheet (sheet f));
  write (sheet_path args) tsheet;;
  verbose_print args 1 ("INFO: wrote " +:+ PurePath.to_string (sheet_path args)).

(** The frame [main] starts its loop with. *)
Definition initial (b : Backend) (args : Args) (w : World) : Frame :=
  mkFrame ∅
    (mkSheet (arg_name args) (getuser b) (arg_name args +:+ " description") [])
    w.

(** [main], the command line parsed: the result and the final frame. *)
Definition main (b : Backend) (args : Args) (w : World) : Result unit * Frame :=
  (loop b args (svg_file args);; emit_sheet args) (initial b args w).

(** The exit status of the interpreter: 0 when [main] returns, 1 when an
    exception reaches the top level. *)
Definition exit_status {A} (r : Result A) : Z :=
  match r with
  | Ok _ => 0
  | Raise _ => 1
  end.

(** The stems whose conversion is complete: a stem is entered in the sheet
    by the last statement of the loop body. *)
Definition processed (f : Frame) : list string := Py.keys (objects (sheet f)).

(** ** Reading XML back

    The design document asks that a shape document, once serialized, can be
    parsed again without loss.  The reader below is the other end of that
    round trip: a reader of XML 1.0 for the documents [ET.tostring] writes
    (elements, attributes, character data, the predefined entities and
    decimal character references in the ASCII range), working on bytes.  It
    follows the recommendation where the round trip depends on it: the
    characters allowed in a document (section 2.2), the line ends (2.11),
    the normalization of attribute values (3.3.3) and the references (4.1,
    4.6).  Names are not resolved against namespaces: a tag or an attribute
    name is read as it is written.  Text that follows a child element (the
    tail of the child) has no place in [ET.Tree] and is refused. *)

Module XmlReader.

Definition code (c : ascii) : nat := nat_of_ascii c.

Definition is_space (c : ascii) : bool :=
  let n := code c in
  ((n =? 32) || (n =? 9) || (n =? 10) || (n =? 13))%nat.

(** A character the document may contain: tab, line feed, carriage
    return, and everything from space upwards. *)
Definition is_char (c : ascii) : bool :=
  let n := code c in
  ((32 <=? n) || (n =? 9) || (n =? 10) || (n =? 13))%nat.

Definition is_name_start (c : ascii) : bool :=
  let n := code c in
  ((65 <=? n) && (n <=? 90) || (97 <=? n) && (n <=? 122) ||
   (n =? 95) || (n =? 58) || (128 <=? n))%nat.

Definition is_name_char (c : ascii) : bool :=
  let n := code c in
  (is_name_start c || (48 <=? n) && (n <=? 57) || (n =? 45) || (n =? 46))%nat.

(** An element whose start tag has been read and whose end tag has not. *)
Record Open : Type := mkOpen {
  o_tag : string;
  o_attrib : Py.dict string;
  o_text : string;
  o_children : list ET.Tree
}.

Inductive Mode : Type :=
| Content
| Reference (r : string)
| TagOpen
| StartName (t : string)
| Attrs (t : string) (a : Py.dict string) (sp : bool)
| AttrName (t : string) (a : Py.dict string) (k : string)
| AttrEq (t : string) (a : Py.dict string) (k : string)
| AttrQuote (t : string) (a : Py.dict string) (k : string)
| AttrValue (t : string) (a : Py.dict string) (k : string) (q : ascii) (v : string)
| AttrReference (t : string) (a : Py.dict string) (k : string) (q : ascii)
                (v : string) (r : string)
| EmptyTag (t : string) (a : Py.dict string)
| EndName (t : string)
| EndSpace (t : string).

(** The reader between two characters: the open elements, innermost
    first; where in the syntax it is; the root element once it is closed;
    and whether the last character was a carriage return. *)
Record State : Type := mkState {
  stack : list Open;
  mode : Mode;
  root : option ET.Tree;
  after_cr : bool
}.

Definition initial : State := mkState [] Content None false.

Definition with_mode (st : State) (m : Mode) : State :=
  mkState (stack st) m (root st) (after_cr st).

Definition snoc (s : string) (c : ascii) : string := s +:+ String c EmptyString.

(** The character a reference stands for. *)
Definition decode (r : string) : option ascii :=
  if String.eqb r "amp" then Some "&"%char
  else if String.eqb r "lt" then Some "<"%char
  else if String.eqb r "gt" then Some ">"%char
  else if String.eqb r "quot" then Some ET.dquote
  else if String.eqb r "apos" then Some "'"%char
  else match r with
       | String "#" d =>
           n ← Nat.of_uint <$> NilZero.uint_of_string d;
           if (n <? 128)%nat && is_char (ascii_of_nat n)
           then Some (ascii_of_nat n) else None
       | _ => None
       end.

(** A complete element goes to the innermost open element, or becomes the
    root when none is open. *)
Definition deliver (e : ET.Tree) (st : State) : option State :=
  match stack st with
  | o :: s =>
      Some (mkState (mkOpen (o_tag o) (o_attrib o) (o_text o) (o_children o ++ [e]) :: s)
                    Content (root st) (after_cr st))
  | [] =>
      match root st with
      | None => Some (mkState [] Content (Some e) (after_cr st))
      | Some _ => None
      end
  end.

(** One character of data in the content of an element.  Outside the root
    only white space may occur. *)
Definition data (c : ascii) (st : State) : option State :=
  match stack st with
  | o :: s =>
      if is_char c then
        match o_children o with
        | [] => Some (mkState (mkOpen (o_tag o) (o_attrib o) (snoc (o_text o) c) [] :: s)
                              Content (root st) (after_cr st))
        | _ :: _ => None
        end
      else None
  | [] => if is_space c then Some (with_mode st Content) else None
  end.

(** The end of a start tag: the element is open from here on. *)
Definition open (t : string) (a : Py.dict string) (st : State) : option State :=
  match stack st, root st with
  | [], Some _ => None
  | _, _ => Some (mkState (mkOpen t a EmptyString [] :: stack st) Content
                          (root st) (after_cr st))
  end.

(** The end of an end tag: its name must be that of the innermost open
    element, which is then complete. *)
Definition close (t : string) (st : State) : option State :=
  match stack st with
  | o :: s =>
      if String.eqb (o_tag o) t then
        deliver (ET.Elem (o_tag o) (o_attrib o)
                   (if Py.truthy (o_text o) then Some (o_text o) else None)
                   (o_children o))
                (mkState s Content (root st) (after_cr st))
      else None
  | [] => None
  end.

(** Inside a start tag, after the name or after an attribute. *)
Definition in_start_tag (t : string) (a : Py.dict string) (sp : bool)
    (c : ascii) (st : State) : option State :=
  if is_space c then Some (with_mode st (Attrs t a true))
  else if Ascii.eqb c ">" then open t a st
  else if Ascii.eqb c "/" then Some (with_mode st (EmptyTag t a))
  else if is_name_start c && sp then Some (with_mode st (AttrName t a (String c EmptyString)))
  else None.

Definition in_end_tag (t : string) (c : ascii) (st : State) : option State :=
  if is_space c then Some (with_mode st (EndSpace t))
  else if Ascii.eqb c ">" then close t st
  else None.

Definition in_reference (c : ascii) : bool :=
  is_name_char c || Ascii.eqb c "#".

(** One character, line ends already normalized. *)
Definition step (st : State) (c : ascii) : option State :=
  match mode st with
  | Content =>
      if Ascii.eqb c "<" then Some (with_mode st TagOpen)
      else if Ascii.eqb c "&" then
        match stack st with
        | [] => None
        | _ :: _ => Some (with_mode st (Reference EmptyString))
        end
      else data c st
  | Reference r =>
      if Ascii.eqb c ";" then d ← decode r; data d st
      else if in_reference c then Some (with_mode st (Reference (snoc r c)))
      else None
  | TagOpen =>
      if Ascii.eqb c "/" then Some (with_mode st (EndName EmptyString))
      else if is_name_start c then Some (with_mode st (StartName (String c EmptyString)))
      else None
  | StartName t =>
      if is_name_char c then Some (with_mode st (StartName (snoc t c)))
      else in_start_tag t [] false c st
  | Attrs t a sp => in_start_tag t a sp c st
  | AttrName t a k =>
      if is_name_char c then Some (with_mode st (AttrName t a (snoc k c)))
      else if Ascii.eqb c "=" then Some (with_mode st (AttrQuote t a k))
      else if is_space c then Some (with_mode st (AttrEq t a k))
      else None
  | AttrEq t a k =>
      if is_space c then Some st
      else if Ascii.eqb c "=" then Some (with_mode st (AttrQuote t a k))
      else None
  | AttrQuote t a k =>
      if is_space c then Some st
      else if Ascii.eqb c ET.dquote || Ascii.eqb c "'"
      then Some (with_mode st (AttrValue t a k c EmptyString))
      else None
  | AttrValue t a k q v =>
      if Ascii.eqb c q then
        match Py.getitem a k with
        | None => Some (with_mode st (Attrs t (a ++ [(k, v)]) false))
        | Some _ => None
        end
      else if Ascii.eqb c "<" then None
      else if Ascii.eqb c "&" then Some (with_mode st (AttrReference t a k q v EmptyString))
      else if is_space c then Some (with_mode st (AttrValue t a k q (snoc v " ")))
      else if is_char c then Some (with_mode st (AttrValue t a k q (snoc v c)))
      else None
  | AttrReference t a k q v r =>
      if Ascii.eqb c ";" then
        d ← decode r; Some (with_mode st (AttrValue t a k q (snoc v d)))
      else if in_reference c
      then Some (with_mode st (AttrReference t a k q v (snoc r c)))
      else None
  | EmptyTag t a =>
      if Ascii.eqb c ">" then
        match stack st, root st with
        | [], Some _ => None
        | _, _ => deliver (ET.Elem t a None []) (with_mode st Content)
        end
      else None
  | EndName t =>
      if is_name_char c then Some (with_mode st (EndName (snoc t c)))
      else in_end_tag t c st
  | EndSpace t => in_end_tag t c st
  end.

(** One character of the document: a carriage return counts as a line
    feed, and a line feed that follows a carriage return is dropped. *)
Definition feed (st : State) (c : ascii) : option State :=
  if after_cr st && Ascii.eqb c ET.lf
  then Some (mkState (stack st) (mode st) (root st) false)
  else
    step (mkState (stack st) (mode st) (root st) (Ascii.eqb c ET.cr))
         (if Ascii.eqb c ET.cr then ET.lf else c).

Fixpoint run (st : option State) (s : string) : option State :=
  match s with
  | EmptyString => st
  | String c s' => run (st ≫= fun st => feed st c) s'
  end.

(** The tree of a document: the whole input must be one element. *)
Definition read (s : string) : option ET.Tree :=
  st ← run (Some initial) s;
  match stack st, mode st with
  | [], Content => root st
  | _, _ => None
  end.

End XmlReader.

(** The fields of a shape document, as a reader takes them from the tree. *)
Record ShapeFields : Type := mkShapeFields {
  shape_name : string;
  shape_icon : string;
  shape_points : list (Z * Z);
  shape_aspectratio : string;
  image_x : Z;
  image_y : Z;
  image_width : Z;
  image_height : Z;
  image_href : string
}.

Definition int_attribute (k : string) (e : ET.Tree) : option Z :=
  ET.get k e ≫= Py.int.

Definition read_point (e : ET.Tree) : option (Z * Z) :=
  x ← int_attribute "x" e; y ← int_attribute "y" e; Some (x, y).

Definition read_points (t : ET.Tree) : option (list (Z * Z)) :=
  conns ← ET.find "connections" t;
  mapM read_point (ET.findall "point" conns).

Definition shape_fields (t : ET.Tree) : option ShapeFields :=
  n ← ET.findtext "name" t;
  i ← ET.findtext "icon" t;
  pts ← read_points t;
  ar ← ET.find "aspectratio" t ≫= ET.get "type";
  svg ← ET.find "svg:svg" t;
  img ← ET.find "svg:image" svg;
  x ← int_attribute "x" img;
  y ← int_attribute "y" img;
  w ← int_attribute "width" img;
  h ← int_attribute "height" img;
  href ← ET.get "xlink:href" img;
  Some (mkShapeFields n i pts ar x y w h href).

(** Parsing a serialized shape document. *)
Definition parse_shape (doc : string) : option ShapeFields :=
  XmlReader.read doc ≫= shape_fields.

(** ** The documents, written out

    What the two builders leave in the store, and the trees they return,
    given as plain values.  The lemmas below show that the builders compute
    exactly these. *)

(** The nine connection points of a [width] by [height] thumbnail. *)
Definition connection_points (width height : Z) : list (Z * Z) :=
  [(0, 0); (0, width / 2); (0, width); (height / 2, 0); (height, 0);
   (width / 2, height); (width / 2, height / 2); (width, height / 2);
   (width, height)].

Definition point_tree (p : Z * Z) : ET.Tree :=
  ET.Elem "point" [("x", Py.str p.1); ("y", Py.str p.2)] None [].

Definition shape_tree (stem : string) (width height : Z) : ET.Tree :=
  ET.Elem "shape"
    [("xmlns:svg", "http://www.w3.org/2000/svg");
     ("xmlns:xlink", "http://www.w3.org/1999/xlink");
     ("xmlns", "http://www.daa.com.au/~james/dia-shape-ns")] None
    [ET.Elem "name" [] (Some stem) [];
     ET.Elem "icon" [] (Some (stem +:+ ".png")) [];
     ET.Elem "connections" [] None (map point_tree (connection_points width height));
     ET.Elem "aspectratio" [("type", "fixed")] None [];
     ET.Elem "svg:svg" [] None
       [ET.Elem "svg:image"
          [("xlink:href", stem +:+ ".svg"); ("x", "0"); ("y", "0");
           ("width", Py.str width); ("height", Py.str height)] None []]].

(** The body of the loop of [build_sheet], for the contents element [c]. *)
Definition object_body (c : nat) : string * string -> ET.M unit :=
  fun '(oname, odescription) =>
     xobj ← ET.SubElement c "object" [];
     ET.set_attrib xobj "name" oname;;
     x ← ET.SubElement xobj "description" [];
     ET.set_text x odescription.

(** The nodes that loop adds to a store of length [n], and the indices it
    appends to the children of the contents element. *)
Fixpoint object_nodes (n : nat) (objs : list (string * string)) : list ET.Node :=
  match objs with
  | [] => []
  | (k, v) :: r =>
      ET.mkNode "object" [("name", k)] None [S n] ::
      ET.mkNode "description" [] (Some v) [] :: object_nodes (S (S n)) r
  end.

Fixpoint object_ids (n : nat) (objs : list (string * string)) : list nat :=
  match objs with
  | [] => []
  | _ :: r => n :: object_ids (S (S n)) r
  end.

Definition add_children (ids : list nat) (n : ET.Node) : ET.Node :=
  ET.mkNode (ET.tag n) (ET.attrib n) (ET.text n) (ET.children n ++ ids).

Definition object_tree (o : string * string) : ET.Tree :=
  ET.Elem "object" [("name", o.1)] None [ET.Elem "description" [] (Some o.2) []].

Definition field_tree (t v : string) : list ET.Tree :=
  if Py.truthy v then [ET.Elem t [] (Some v) []] else [].

Definition sheet_tree (s : Sheet) : ET.Tree :=
  ET.Elem "sheet" [("xmlns", "http://www.lysator.liu.se/~alla/dia/dia-sheet-ns")] None
    (field_tree "name" (name s) ++ field_tree "created_by" (author s) ++
     field_tree "description" (description s) ++
     [ET.Elem "contents" [] None (map object_tree (objects s))]).

(** ** The run, in the words of the design document *)

(** The stem of a path given on the command line. *)
Definition stem_of (x : string) : string := PurePath.stem (PurePath.of_string x).

(** The distinct elements of a list, in the order of their first
    occurrence, each once. *)
Fixpoint first_occurrences (l : list string) : list string :=
  match l with
  | [] => []
  | x :: r => x :: filter (fun y => y <> x) (first_occurrences r)
  end.

(** The paths of the three files the run writes for a stem. *)
Definition outputs (args : Args) (stem : string) : list string :=
  [png_file args stem;
   PurePath.to_string (new_path args stem);
   PurePath.to_string (shape_path args stem)].

(** The entry of a stem in the [objects] mapping of the sheet. *)
Definition entry (stem : string) : string * string :=
  (stem, "description " +:+ stem).

(** What a call of [verbose_print] adds to the standard output. *)
Definition verbose_lines (args : Args) (level : Z) (msg : string) : list string :=
  match verbosity args with
  | Some v => if bool_decide (v = 0) then []
              else if bool_decide (level > 1 - v) then [msg] else []
  | None => []
  end.

(** A string without a slash. *)
Definition no_sep (s : string) : Prop :=
  Py.all (fun c => negb (Ascii.eqb c "/")) s = true.

(** The stems of a list that the loop converts when it starts with the set
    [s] of stems already seen. *)
Fixpoint resolve (s : gset string) (l : list string) : list string :=
  match l with
  | [] => []
  | x :: r =>
      if bool_decide (x ∈ s) then resolve s r else x :: resolve ({[x]} ∪ s) r
  end.

(** The files after the rasterizer has run for a stem. *)
Definition after_convert (args : Args) (stem : string) (out : option string)
    (fs : gmap string string) : gmap string string :=
  match out with
  | Some img => <[png_file args stem := img]> fs
  | None => fs
  end.

(** What holds of the frame between two iterations: every stem entered in
    the sheet has been seen, and its entry is the placeholder description. *)
Definition consistent (f : Frame) : Prop :=
  (forall k, k ∈ processed f -> k ∈ seen f) /\
  objects (sheet f) = map entry (processed f).

(** ** A run to try things on

    The scenario of the design document: the inputs [a.svg], [b.svg] and
    [a.svg] again, under the name [demo], with a rasterizer that writes its
    thumbnail and an introspection command that reports 22 by 22. *)

Definition demo_backend : Backend :=
  mkBackend (fun _ _ => (0, Some "PNG")) (fun _ _ => (0, "22 22")) "user".

Definition demo_world : World :=
  mkWorld (list_to_map [("a.svg", "<svg id='a'/>"); ("b.svg", "<svg id='b'/>")]) [].

Definition demo_args (v : option Z) : Args :=
  mkArgs "demo" ["a.svg"; "b.svg"; "a.svg"] v.

(** The same with an introspection command that exits with status 1, and
    with a rasterizer that writes nothing and exits with status 2. *)
Definition identify_fails : Backend :=
  mkBackend (fun _ _ => (0, Some "PNG")) (fun _ _ => (1, "")) "user".

Definition convert_fails : Backend :=
  mkBackend (fun _ _ => (2, None)) (fun _ _ => (0, "22 22")) "user".

(** The failure of an external command in the iteration of the input [x],
    which comes after the inputs [l1] and has a new stem: [rc] and [out] are
    the exit status and the thumbnail of the rasterizer, [rc'] the exit
    status of the introspection command run after it, and one of the two
    is not zero. *)
Definition command_fails (b : Backend) (args : Args) (w : World)
    (l1 : list string) (x : string) (f1 : Frame)
    (rc : Z) (out : option string) (rc' : Z) : Prop :=
  (exists l2, svg_file args = l1 ++ x :: l2) /\
  loop b args l1 (initial b args w) = (Ok tt, f1) /\
  (stem_of x ∉ seen f1) /\
  convert b (convert_cmd args (PurePath.of_string x)) (files (world f1)) = (rc, out) /\
  (exists o, identify b (identify_cmd args (stem_of x))
               (after_convert args (stem_of x) out (files (world f1))) = (rc', o)) /\
  (rc <> 0 \/ (rc = 0 /\ rc' <> 0)).

(** The exception such a failure raises: that of the first command that
    failed, with its exit status. *)
Definition command_error (args : Args) (x : string) (rc rc' : Z) : Exception :=
  if bool_decide (rc = 0)
  then CalledProcessError rc' (identify_cmd args (stem_of x))
  else CalledProcessError rc (convert_cmd args (PurePath.of_string x)).

(** The design document on such a failure, as it words it: the files are
    those left by the inputs before [x], nothing is there for [x]. *)
Definition abort_leaves_nothing : Prop :=
  forall b args w l1 x f1 rc out rc',
    command_fails b args w l1 x f1 rc out rc' ->
    exists e f, main b args w = (Raise e, f) /\
                files (world f) = files (world f1).

(** The design document on the exit status, as it words it: the status of
    the process is that of the command that failed. *)
Definition exit_status_propagated : Prop :=
  forall b args w rc cmd f,
    main b args w = (Raise (CalledProcessError rc cmd), f) ->
    exit_status (main b args w).1 = rc.

(** The design document on the verbosity flag, as it words it: a message of
    level 1 needs one flag, a message of level 2 needs two. *)
Definition printed_by_level (args : Args) (level : Z) (msg : string) : list string :=
  match verbosity args with
  | Some v => if bool_decide (level <= v) then [msg] else []
  | None => []
  end.

(** ** Documents that read back

    A name the reader takes as a tag or as an attribute name; a character
    that character data carries through unchanged (a carriage return does
    not: the reader turns it into a line feed); and the trees all of whose
    names, attribute values and texts are of that kind. *)

Definition valid_name (t : string) : bool :=
  match t with
  | String c t' => XmlReader.is_name_start c && Py.all XmlReader.is_name_char t'
  | EmptyString => false
  end.

Definition text_char (c : ascii) : bool :=
  XmlReader.is_char c && negb (Ascii.eqb c ET.cr).

Definition attr_ok (kv : string * string) : bool :=
  valid_name kv.1 && Py.all XmlReader.is_char kv.2.

Fixpoint readable (e : ET.Tree) : bool :=
  match e with
  | ET.Elem t a x c =>
      valid_name t && forallb attr_ok a && bool_decide (NoDup (Py.keys a)) &&
      match x with Some s => Py.all text_char s | None => true end &&
      forallb readable c
  end.

(** What a reader makes of a tree: an empty text is no text. *)
Fixpoint normalize (e : ET.Tree) : ET.Tree :=
  match e with
  | ET.Elem t a x c =>
      ET.Elem t a (if ET.text_truthy x then x else None) (map normalize c)
  end.

(** The fields of the shape of a stem and a thumbnail size. *)
Definition expected_fields (stem : string) (width height : Z) : ShapeFields :=
  mkShapeFields stem (stem +:+ ".png") (connection_points width height) "fixed"
                0 0 width height (stem +:+ ".svg").

(** The design document on the round trip, as it words it: for every stem
    and every size, parsing the serialized shape gives the fields back. *)
Definition shape_round_trip : Prop :=
  forall (svg_path : PurePath.Path) (width height : Z),
    exists xshape,
      ET.run (build_shape svg_path width height) = Some xshape /\
      parse_shape (ET.tostring xshape)
        = Some (expected_fields (PurePath.stem svg_path) width height).

(** A file name with a carriage return in it. *)
Definition cr_path : PurePath.Path :=
  PurePath.of_string ("a" +:+ String ET.cr "b.svg").

(** Where the reader is inside a start tag, after the name [t] and the
    attributes [a]: still at the name when there is no attribute yet. *)
Definition tag_mode (t : string) (a : Py.dict string) : XmlReader.Mode :=
  match a with
  | [] => XmlReader.StartName t
  | _ :: _ => XmlReader.Attrs t a false
  end.

(** * Properties *)

#[local] Arguments String.append !_ _ / : simpl nomatch.

(** ** The store and the trees of the builders *)

Lemma tree_of_mono fuel fuel' h id t :
  ET.tree_of fuel h id = Some t -> (fuel <= fuel')%nat -> ET.tree_of fuel' h id = Some t.
Proof.
  revert fuel' id t. induction fuel as [|fuel IH]; intros fuel' id t H Hle; [discriminate|].
  destruct fuel' as [|fuel']; [lia|]. simpl in *.
  destruct (h !! id) as [n|]; [|discriminate]. simpl in *.
  destruct (mapM (ET.tree_of fuel h) (ET.children n)) as [c|] eqn:Hc; [|discriminate].
  simpl in H. injection H as <-.
  assert (mapM (ET.tree_of fuel' h) (ET.children n) = Some c) as ->; [|done].
  apply mapM_Some. apply mapM_Some in Hc.
  eapply Forall2_impl; [exact Hc|]. intros x y Hxy. apply IH; [done|lia].
Qed.

Lemma alter_add_children_app ids1 ids2 c (h : ET.Store) :
  alter (add_children ids2) c (alter (add_children ids1) c h)
  = alter (add_children (ids1 ++ ids2)) c h.
Proof.
  rewrite list_alter_alter_eq. apply list_alter_ext; [|done].
  intros [t a x k] _. unfold add_children. simpl. by rewrite <- app_assoc.
Qed.

Lemma alter_mid {A} (f : A -> A) (l r : list A) (x : A) :
  alter f (length l) (l ++ x :: r) = l ++ f x :: r.
Proof.
  replace (length l) with (length l + 0)%nat by lia. by rewrite alter_app_r.
Qed.

Lemma alter_mid1 {A} (f : A -> A) (l r : list A) (x y : A) :
  alter f (length l + 1)%nat (l ++ x :: y :: r) = l ++ x :: f y :: r.
Proof. by rewrite alter_app_r. Qed.

Lemma object_body_store k v (c : nat) (h : list ET.Node) :
  (c < length h)%nat ->
  object_body c (k, v) h
  = (tt, alter (add_children [length h]) c h ++ object_nodes (length h) [(k, v)]).
Proof.
  intros Hc. unfold object_body, ET.SubElement, ET.set_attrib, ET.set_text, ET.append,
    ET.Element, ET.set_node, mbind, mret, ET.M_bind, ET.M_ret, ET.bind, ET.ret.
  simpl. f_equal.
  rewrite (alter_app_l _ h _ c Hc).
  fold (add_children [length h]).
  set (h1 := alter _ c h).
  assert (length h = length h1) as Hl by (unfold h1; by rewrite length_alter).
  rewrite Hl. clearbody h1. clear Hl.
  repeat first
    [ rewrite alter_mid | rewrite alter_mid1 | rewrite length_app
    | rewrite <- app_assoc | progress simpl ].
  repeat f_equal. lia.
Qed.

Lemma for_each_objects (objs : list (string * string)) (c : nat) (h : list ET.Node) :
  (c < length h)%nat ->
  ET.for_each objs (object_body c) h
  = (tt, alter (add_children (object_ids (length h) objs)) c h
         ++ object_nodes (length h) objs).
Proof.
  revert h. induction objs as [|[k v] objs IH]; intros h Hc.
  - simpl. unfold mret, ET.M_ret, ET.ret. f_equal. rewrite app_nil_r.
    symmetry. apply list_alter_id. intros [t a x kids]. unfold add_children. simpl.
    by rewrite app_nil_r.
  - cbn [ET.for_each]. unfold mbind, ET.M_bind, ET.bind.
    rewrite object_body_store by done.
    rewrite IH.
    2:{ rewrite length_app, length_alter. lia. }
    f_equal. rewrite length_app, length_alter. cbn [object_nodes length].
    replace (length h + 2)%nat with (S (S (length h))) by lia.
    rewrite alter_app_l by (rewrite length_alter; lia).
    rewrite alter_add_children_app. cbn [object_ids app].
    rewrite <- (assoc_L (++)). done.
Qed.

Lemma tree_of_objects (objs : list (string * string)) (pre : list ET.Node) (fuel : nat) :
  mapM (ET.tree_of (S (S fuel)) (pre ++ object_nodes (length pre) objs))
       (object_ids (length pre) objs)
  = Some (map object_tree objs).
Proof.
  revert pre. induction objs as [|[k v] objs IH]; intros pre; [done|].
  cbn [object_ids object_nodes map].
  specialize (IH (pre ++ [ET.mkNode "object" [("name", k)] None [S (length pre)];
                          ET.mkNode "description" [] (Some v) []])).
  rewrite length_app in IH. cbn [length] in IH.
  replace (length pre + 2)%nat with (S (S (length pre))) in IH by lia.
  rewrite <- app_assoc in IH. cbn [app] in IH.
  set (H := pre ++ _) in *.
  assert (H !! length pre = Some (ET.mkNode "object" [("name", k)] None [S (length pre)])) as H0.
  { unfold H. by rewrite list_lookup_middle. }
  assert (H !! S (length pre) = Some (ET.mkNode "description" [] (Some v) [])) as H1.
  { unfold H. rewrite lookup_app_r by lia.
    replace (S (length pre) - length pre)%nat with 1%nat by lia. done. }
  cbn [mapM]. rewrite IH.
  cbn [ET.tree_of]. rewrite H0. cbn [mbind option_bind ET.children mapM ET.tree_of].
  rewrite H1. done.
Qed.

Lemma build_sheet_unfold (s : Sheet) :
  build_sheet s =
  (xsheet ← ET.Element "sheet"
     (Py.literal [("xmlns", "http://www.lysator.liu.se/~alla/dia/dia-sheet-ns")]);
   (if Py.truthy (name s)
    then (x ← ET.SubElement xsheet "name" []; ET.set_text x (name s))
    else mret tt);;
   (if Py.truthy (author s)
    then (x ← ET.SubElement xsheet "created_by" []; ET.set_text x (author s))
    else mret tt);;
   (if Py.truthy (description s)
    then (x ← ET.SubElement xsheet "description" []; ET.set_text x (description s))
    else mret tt);;
   xcontents ← ET.SubElement xsheet "contents" [];
   ET.for_each (Py.items (objects s)) (object_body xcontents);;
   mret xsheet).
Proof. reflexivity. Qed.

Lemma object_nodes_length n o (objs : list (string * string)) :
  (2 <= length (object_nodes n (o :: objs)))%nat.
Proof. destruct o. simpl. lia. Qed.

Lemma tree_of_S fuel (h : list ET.Node) id t a x k c :
  h !! id = Some (ET.mkNode t a x k) ->
  mapM (ET.tree_of fuel h) k = Some c ->
  ET.tree_of (S fuel) h id = Some (ET.Elem t a x c).
Proof. intros H1 H2. simpl. rewrite H1. simpl. by rewrite H2. Qed.

Lemma tree_of_contents fuel (pre : list ET.Node) objs id :
  (pre ++ object_nodes (length pre) objs) !! id
    = Some (ET.mkNode "contents" [] None (object_ids (length pre) objs)) ->
  ET.tree_of (S (S (S fuel))) (pre ++ object_nodes (length pre) objs) id
    = Some (ET.Elem "contents" [] None (map object_tree objs)).
Proof.
  intros H. erewrite tree_of_S; [|exact H|apply tree_of_objects]. done.
Qed.

Ltac sheet_store_tree objs :=
  let o := fresh "o" in
  destruct objs as [|o objs]; [reflexivity|];
  eapply tree_of_mono with (fuel := 4%nat);
    [|pose proof (object_nodes_length 2 o objs); pose proof (object_nodes_length 3 o objs);
      pose proof (object_nodes_length 4 o objs); pose proof (object_nodes_length 5 o objs);
      lia];
  generalize (o :: objs); clear o objs; intros objs;
  eapply tree_of_S; [reflexivity|];
  apply mapM_Some;
  repeat first
    [ apply List.Forall2_nil
    | apply List.Forall2_cons; [first
        [ reflexivity
        | match goal with
          | |- ET.tree_of _ ?st ?k = _ =>
              let pre := eval cbn in (take k st) in
              let pre' := eval cbn in (pre ++ [ET.mkNode "contents" [] None (object_ids (S k) objs)]) in
              apply (tree_of_contents 0 pre' objs k); reflexivity
          end ] | ] ].

Lemma build_sheet_tree (s : Sheet) : ET.run (build_sheet s) = Some (sheet_tree s).
Proof.
  destruct s as [n a d objs]. unfold ET.run. rewrite build_sheet_unfold.
  unfold sheet_tree, field_tree, Py.items. cbn [name author description objects].
  set (F := fun xc => ET.for_each objs (object_body xc)).
  change (ET.for_each objs (object_body ?x)) with (F x).
  assert (forall c h, (c < length h)%nat ->
            F c h = (tt, alter (add_children (object_ids (length h) objs)) c h
                         ++ object_nodes (length h) objs)) as HF.
  { intros. apply for_each_objects; done. }
  clearbody F.
  unfold ET.SubElement, ET.set_text, ET.append, ET.set_node, ET.Element.
  unfold mbind, mret, ET.M_bind, ET.M_ret, ET.bind, ET.ret.
  destruct (Py.truthy n), (Py.truthy a), (Py.truthy d);
    cbn -[ET.tree_of]; (rewrite HF by (simpl; lia)); cbn -[ET.tree_of]; clear HF F.
  all: sheet_store_tree objs.
Qed.


Lemma build_shape_tree p w h :
  ET.run (build_shape p w h) = Some (shape_tree (PurePath.stem p) w h).
Proof. reflexivity. Qed.
(** ** Integers and their decimal form *)

Lemma all_app p (s1 s2 : string) : Py.all p (s1 +:+ s2) = Py.all p s1 && Py.all p s2.
Proof. induction s1 as [|c s1 IH]; simpl; [done|]. rewrite IH. by rewrite andb_assoc. Qed.

Lemma all_impl (p q : ascii -> bool) (s : string) :
  (forall c, p c = true -> q c = true) -> Py.all p s = true -> Py.all q s = true.
Proof.
  intros Hpq. induction s as [|c s IH]; simpl; [done|].
  intros [H1 H2]%andb_prop. rewrite (Hpq _ H1), IH; done.
Qed.

Lemma string_of_uint_digits (d : Decimal.uint) :
  Py.all Py.isdigit (NilEmpty.string_of_uint d) = true.
Proof. induction d; simpl; try done. Qed.

Lemma string_of_uint_nonempty (d : Decimal.uint) :
  d <> Decimal.Nil -> NilEmpty.string_of_uint d <> EmptyString.
Proof. destruct d; simpl; done. Qed.

Lemma digits_go_digits (s : string) (b : bool) :
  Py.all Py.isdigit s = true -> (b = true \/ s <> EmptyString) ->
  Py.digits_go b s = Some s.
Proof.
  revert b. induction s as [|c s IH]; intros b Hd Hb.
  - destruct Hb as [->|]; done.
  - simpl in *. apply andb_prop in Hd as [Hc Hs]. rewrite Hc.
    rewrite IH; auto.
Qed.

Lemma isdigit_not_space c : Py.isdigit c = true -> Py.isspace c = false.
Proof.
  unfold Py.isdigit, Py.isspace. intros H.
  apply andb_prop in H as [H1 H2]. apply Nat.leb_le in H1, H2.
  apply orb_false_intro; apply andb_false_intro2; apply Nat.leb_gt; lia.
Qed.

Lemma rstrip_no_space (s : string) :
  Py.all (fun c => negb (Py.isspace c)) s = true -> Py.rstrip s = s.
Proof.
  induction s as [|c s IH]; simpl; [done|].
  intros [Hc Hs]%andb_prop. rewrite IH by done.
  destruct s; [|done]. by apply negb_true_iff in Hc as ->.
Qed.

Lemma strip_no_space (s : string) :
  Py.all (fun c => negb (Py.isspace c)) s = true -> Py.strip s = s.
Proof.
  intros H. unfold Py.strip.
  assert (Py.lstrip s = s) as ->; [|by apply rstrip_no_space].
  destruct s as [|c s]; simpl in *; [done|].
  apply andb_prop in H as [Hc _]. by apply negb_true_iff in Hc as ->.
Qed.

Lemma nat_digits_uint (d : Decimal.uint) :
  d <> Decimal.Nil ->
  Py.nat_digits (NilZero.string_of_uint d) = Some (Z.of_uint d).
Proof.
  intros Hd. unfold Py.nat_digits.
  assert (NilZero.string_of_uint d = NilEmpty.string_of_uint d) as E by (by destruct d).
  rewrite digits_go_digits.
  - simpl. rewrite NilZero.usu by done. done.
  - rewrite E. apply string_of_uint_digits.
  - right. rewrite E. by apply string_of_uint_nonempty.
Qed.

Lemma str_no_space (n : Z) : Py.all (fun c => negb (Py.isspace c)) (Py.str n) = true.
Proof.
  assert (forall d, Py.all (fun c => negb (Py.isspace c)) (NilZero.string_of_uint d) = true) as H.
  { intros d.
    assert (NilZero.string_of_uint d = "0" \/
            NilZero.string_of_uint d = NilEmpty.string_of_uint d) as [->| ->];
      [destruct d; auto|done|].
    eapply all_impl; [|apply string_of_uint_digits].
    intros c Hc. by rewrite isdigit_not_space. }
  unfold Py.str. destruct (Z.to_int n); simpl; [apply H|]. apply H.
Qed.

Lemma uint_string_head (d : Decimal.uint) :
  match NilZero.string_of_uint d with
  | String c _ => Py.isdigit c = true
  | EmptyString => False
  end.
Proof. destruct d; simpl; done. Qed.

Lemma int_str (n : Z) : Py.int (Py.str n) = Some n.
Proof.
  unfold Py.int. rewrite strip_no_space by apply str_no_space.
  unfold Py.str.
  assert (forall d, d <> Decimal.Nil ->
            match NilZero.string_of_uint d with
            | String c s' =>
                if Ascii.eqb c "+" then Py.nat_digits s'
                else if Ascii.eqb c "-" then Z.opp <$> Py.nat_digits s'
                else Py.nat_digits (String c s')
            | EmptyString => None
            end = Some (Z.of_uint d)) as Hpos.
  { intros d Hd. rewrite <- (nat_digits_uint d Hd).
    pose proof (uint_string_head d) as Hh.
    destruct (NilZero.string_of_uint d) as [|c s]; [done|].
    destruct (Ascii.eqb_spec c "+") as [->|]; [done|].
    destruct (Ascii.eqb_spec c "-") as [->|]; done. }
  destruct n as [|p|p]; simpl Z.to_int.
  - reflexivity.
  - simpl NilZero.string_of_int.
    rewrite Hpos by apply DecimalPos.Unsigned.to_uint_nonnil.
    change (Z.of_uint (Pos.to_uint p)) with (Z.of_int (Z.to_int (Z.pos p))).
    by rewrite DecimalZ.of_to.
  - simpl NilZero.string_of_int. cbn [Ascii.eqb Bool.eqb].
    rewrite nat_digits_uint by apply DecimalPos.Unsigned.to_uint_nonnil.
    simpl. f_equal.
    change (- Z.of_uint (Pos.to_uint p)) with (Z.of_int (Z.to_int (Z.neg p))).
    by rewrite DecimalZ.of_to.
Qed.

(** ** Strings and paths *)


Lemma append_assoc (a b c : string) : (a +:+ b) +:+ c = a +:+ (b +:+ c).
Proof. induction a as [|x a IH]; simpl; [done|]. by rewrite IH. Qed.

Lemma append_nil_r (a : string) : a +:+ "" = a.
Proof. induction a as [|x a IH]; simpl; [done|]. by rewrite IH. Qed.

Lemma length_append (a b : string) :
  String.length (a +:+ b) = (String.length a + String.length b)%nat.
Proof. induction a as [|x a IH]; simpl; [done|]. by rewrite IH. Qed.

Lemma chars_append (a b : string) :
  list_ascii_of_string (a +:+ b) = list_ascii_of_string a ++ list_ascii_of_string b.
Proof. induction a as [|x a IH]; simpl; [done|]. by rewrite IH. Qed.

Lemma chars_inj (a b : string) :
  list_ascii_of_string a = list_ascii_of_string b -> a = b.
Proof.
  intros H. rewrite <- (string_of_list_ascii_of_string a),
    <- (string_of_list_ascii_of_string b). by rewrite H.
Qed.

(** Two names with extensions of the same length are equal only if the
    names and the extensions are. *)
Lemma append_inj_same_length (s1 s2 e1 e2 : string) :
  String.length e1 = String.length e2 ->
  s1 +:+ e1 = s2 +:+ e2 -> s1 = s2 /\ e1 = e2.
Proof.
  intros Hl H. apply (f_equal list_ascii_of_string) in H.
  rewrite !chars_append in H.
  apply app_inj_2 in H as [H1 H2].
  - split; by apply chars_inj.
  - rewrite <- (string_of_list_ascii_of_string e1),
      <- (string_of_list_ascii_of_string e2) in Hl.
    revert Hl. generalize (list_ascii_of_string e1), (list_ascii_of_string e2).
    intros l1. induction l1 as [|x l1 IH]; intros [|y l2]; simpl; try done.
    intros [=]. f_equal. by apply IH.
Qed.

Lemma png_not_shape (s1 s2 : string) : s1 +:+ ".png" <> s2 +:+ ".shape".
Proof.
  intros H.
  change (s2 +:+ ".shape") with (s2 +:+ (".s" +:+ "hape")) in H.
  rewrite <- append_assoc in H.
  by apply append_inj_same_length in H as [_ [=]].
Qed.

Lemma svg_not_shape (s1 s2 : string) : s1 +:+ ".svg" <> s2 +:+ ".shape".
Proof.
  intros H.
  change (s2 +:+ ".shape") with (s2 +:+ (".s" +:+ "hape")) in H.
  rewrite <- append_assoc in H.
  by apply append_inj_same_length in H as [_ [=]].
Qed.

Lemma png_not_svg (s1 s2 : string) : s1 +:+ ".png" <> s2 +:+ ".svg".
Proof. intros H. by apply append_inj_same_length in H as [_ [=]]. Qed.

Lemma all_substring p (s : string) (m : nat) :
  Py.all p s = true -> Py.all p (substring 0 m s) = true.
Proof.
  revert m. induction s as [|c s IH]; intros [|m]; simpl; try done.
  intros [Hc Hs]%andb_prop. by rewrite Hc, IH.
Qed.

Lemma split_sep_no_sep (s : string) : Forall no_sep (PurePath.split_sep s).
Proof.
  induction s as [|c s IH]; simpl.
  - by constructor.
  - destruct (Ascii.eqb c "/") eqn:Hc.
    + by constructor.
    + destruct (PurePath.split_sep s) as [|h t].
      * constructor; [|done]. unfold no_sep. simpl. by rewrite Hc.
      * inversion IH; subst. constructor; [|done].
        unfold no_sep in *. simpl. by rewrite Hc.
Qed.

Lemma name_no_sep (x : string) : no_sep (PurePath.name (PurePath.of_string x)).
Proof.
  unfold PurePath.name, PurePath.of_string. simpl.
  assert (Forall no_sep (filter (fun y => PurePath.kept y = true) (PurePath.split_sep x))) as H.
  { apply Forall_forall. intros y [_ Hy]%list_elem_of_filter.
    by eapply Forall_forall in Hy; [|apply split_sep_no_sep]. }
  revert H. generalize (filter (fun y => PurePath.kept y = true) (PurePath.split_sep x)).
  intros l. induction l as [|a [|b l] IH]; intros H; simpl.
  - done.
  - by inversion H.
  - apply IH. by inversion H.
Qed.

Lemma stem_no_sep (x : string) : no_sep (stem_of x).
Proof.
  unfold stem_of, PurePath.stem. pose proof (name_no_sep x) as H.
  destruct (PurePath.rfind_dot _) as [i|]; [|done].
  destruct (_ && _); [|done]. by apply all_substring.
Qed.

Lemma split_sep_component (t : string) : no_sep t -> PurePath.split_sep t = [t].
Proof.
  unfold no_sep. induction t as [|c t IH]; simpl; [done|].
  intros [Hc Ht]%andb_prop. apply negb_true_iff in Hc. rewrite Hc, IH; done.
Qed.

(** A non-empty segment without a slash, other than ["."], parses to the
    path that has it as its only component. *)
Lemma of_string_component (t : string) :
  no_sep t -> t <> "" -> t <> "." ->
  PurePath.of_string t = PurePath.mkPath "" [t].
Proof.
  intros Hs He Hd. unfold PurePath.of_string. rewrite split_sep_component by done.
  assert (PurePath.kept t = true) as Hk.
  { unfold PurePath.kept. apply andb_true_intro. split; [by destruct t|].
    apply negb_true_iff. by apply String.eqb_neq. }
  rewrite filter_cons_True, filter_nil by done. f_equal.
  unfold PurePath.splitroot, PurePath.sep_at.
  destruct t as [|c t]; [done|]. simpl.
  unfold no_sep in Hs. simpl in Hs. apply andb_prop in Hs as [Hc _].
  apply negb_true_iff in Hc. by rewrite Hc.
Qed.

Lemma join_sep_snoc (l : list string) (x : string) :
  l <> [] -> PurePath.join_sep (l ++ [x]) = PurePath.join_sep l +:+ "/" +:+ x.
Proof.
  induction l as [|a l IH]; [done|]. intros _.
  destruct l as [|b l]; [done|].
  change (PurePath.join_sep ((a :: b :: l) ++ [x]))
    with (a +:+ "/" +:+ PurePath.join_sep ((b :: l) ++ [x])).
  rewrite IH by done.
  change (PurePath.join_sep (a :: b :: l)) with (a +:+ "/" +:+ PurePath.join_sep (b :: l)).
  by rewrite !append_assoc.
Qed.

Lemma pshapes_parsed (args : Args) :
  pshapes args =
  PurePath.mkPath "" ("shapes" :: filter (fun y => PurePath.kept y = true)
                                         (PurePath.split_sep (arg_name args))).
Proof. reflexivity. Qed.

(** The files of a stem lie below [shapes]. *)
Lemma pshapes_prefix (args : Args) :
  exists rest, PurePath.to_string (pshapes args) = "shapes" +:+ rest.
Proof.
  rewrite pshapes_parsed. unfold PurePath.to_string. simpl.
  destruct (filter _ _) as [|a l].
  - by exists "".
  - by exists ("/" +:+ PurePath.join_sep (a :: l)).
Qed.

Lemma joinpath_pshapes (args : Args) (s e : string) :
  no_sep s -> no_sep e -> (2 <= String.length e)%nat ->
  PurePath.to_string (PurePath.joinpath (pshapes args) (s +:+ e))
  = PurePath.to_string (pshapes args) +:+ "/" +:+ s +:+ e.
Proof.
  intros Hs He Hl. unfold PurePath.joinpath.
  rewrite of_string_component.
  - rewrite pshapes_parsed. unfold PurePath.to_string.
    cbn [PurePath.root PurePath.parts].
    set (l := filter _ _).
    change (PurePath.join_sep (("shapes" :: l) ++ [s +:+ e])
            = PurePath.join_sep ("shapes" :: l) +:+ "/" +:+ s +:+ e).
    by rewrite (join_sep_snoc ("shapes" :: l)).
  - unfold no_sep in *. by rewrite all_app, Hs, He.
  - intros H. apply (f_equal String.length) in H. rewrite length_append in H.
    simpl in H. lia.
  - intros H. apply (f_equal String.length) in H. rewrite length_append in H.
    simpl in H. lia.
Qed.

(** The paths of the three files of a stem, as strings. *)
Lemma outputs_strings (args : Args) (s : string) :
  no_sep s ->
  outputs args s =
  [PurePath.to_string (pshapes args) +:+ "/" +:+ s +:+ ".png";
   PurePath.to_string (pshapes args) +:+ "/" +:+ s +:+ ".svg";
   PurePath.to_string (pshapes args) +:+ "/" +:+ s +:+ ".shape"].
Proof.
  intros Hs. unfold outputs, new_path, shape_path, png_file.
  rewrite !joinpath_pshapes; try done; simpl; lia.
Qed.

(** The files of two different stems are different files. *)
Lemma outputs_disjoint (args : Args) (s1 s2 p : string) :
  no_sep s1 -> no_sep s2 -> p ∈ outputs args s1 -> p ∈ outputs args s2 -> s1 = s2.
Proof.
  intros H1 H2. rewrite !outputs_strings by done.
  rewrite !elem_of_cons, !elem_of_nil.
  intros [->|[->|[->|[]]]] [E|[E|[E|[]]]];
    apply String.app_inj in E; apply (String.app_inj "/") in E;
    first [ by apply append_inj_same_length in E as [? _]
          | by apply png_not_svg in E | by apply png_not_shape in E
          | by apply svg_not_shape in E
          | symmetry in E;
            first [ by apply png_not_svg in E | by apply png_not_shape in E
                  | by apply svg_not_shape in E ] ].
Qed.

Lemma splitroot_cases (s : string) :
  PurePath.splitroot s = "" \/ PurePath.splitroot s = "/" \/ PurePath.splitroot s = "//".
Proof.
  unfold PurePath.splitroot.
  destruct (negb _); [auto|]. destruct (_ || _); auto.
Qed.

(** The sheet lies below [sheets], or at an absolute path when the name of
    the run starts with a slash. *)
Lemma sheet_path_prefix (args : Args) :
  exists rest, PurePath.to_string (sheet_path args) = "sheets" +:+ rest \/
               PurePath.to_string (sheet_path args) = "/" +:+ rest.
Proof.
  unfold sheet_path, PurePath.joinpath.
  destruct (PurePath.of_string (arg_name args +:+ ".sheet")) as [r l] eqn:Hq.
  assert (r = PurePath.splitroot (arg_name args +:+ ".sheet")) as Hr.
  { unfold PurePath.of_string in Hq. by injection Hq as <- _. }
  cbn [PurePath.root PurePath.parts].
  destruct (splitroot_cases (arg_name args +:+ ".sheet")) as [H|[H|H]];
    rewrite H in Hr; subst r; unfold PurePath.to_string; simpl.
  - destruct l as [|a l].
    + exists "". by left.
    + exists ("/" +:+ PurePath.join_sep (a :: l)). by left.
  - eexists. right. reflexivity.
  - eexists. right. reflexivity.
Qed.

Lemma sheet_path_not_output (args : Args) (s : string) :
  no_sep s -> PurePath.to_string (sheet_path args) ∉ outputs args s.
Proof.
  intros Hs. rewrite outputs_strings by done.
  destruct (pshapes_prefix args) as [r1 ->].
  destruct (sheet_path_prefix args) as [r2 [-> | ->]];
    rewrite !elem_of_cons, !elem_of_nil; simpl; intros [H|[H|[H|[]]]]; discriminate H.
Qed.

(** ** One iteration of the loop *)

Lemma verbose_print_eq (args : Args) (level : Z) (msg : string) (f : Frame) :
  verbose_print args level msg f =
  (Ok tt, mkFrame (seen f) (sheet f)
            (mkWorld (files (world f)) (stdout (world f) ++ verbose_lines args level msg))).
Proof.
  unfold verbose_print, verbose_lines. destruct f as [sn sh [fs out]]. simpl.
  destruct (verbosity args) as [v|]; [|by rewrite app_nil_r].
  destruct (bool_decide (v = 0)); [by rewrite app_nil_r|].
  destruct (bool_decide (level > 1 - v)); [done|by rewrite app_nil_r].
Qed.

Lemma process_skip (b : Backend) (args : Args) (x : string) (f : Frame) :
  stem_of x ∈ seen f ->
  process b args x f =
  verbose_print args 2 ("WARN: ignoring duplicate " +:+ stem_of x) f.
Proof.
  intros H. unfold process, mbind, Run_bind, get_frame. fold (stem_of x).
  by rewrite bool_decide_eq_true_2.
Qed.

Lemma png_file_output (args : Args) (s : string) : png_file args s ∈ outputs args s.
Proof. unfold outputs. apply list_elem_of_here. Qed.

Lemma new_path_output (args : Args) (s : string) :
  PurePath.to_string (new_path args s) ∈ outputs args s.
Proof. unfold outputs. apply list_elem_of_further, list_elem_of_here. Qed.

Lemma shape_path_output (args : Args) (s : string) :
  PurePath.to_string (shape_path args s) ∈ outputs args s.
Proof. unfold outputs. do 2 apply list_elem_of_further. apply list_elem_of_here. Qed.

Lemma tostring_built_shape (p : PurePath.Path) (w h : Z) (f : Frame) :
  tostring_built (build_shape p w h) f
  = (Ok (ET.tostring (shape_tree (PurePath.stem p) w h)), f).
Proof. unfold tostring_built. by rewrite build_shape_tree. Qed.

Lemma lookup_outside (args : Args) (s p k v : string) (fs : gmap string string) :
  p ∉ outputs args s -> k ∈ outputs args s -> <[k := v]> fs !! p = fs !! p.
Proof. intros Hp Hk. apply lookup_insert_ne. by intros ->. Qed.

Lemma process_fresh (b : Backend) (args : Args) (x : string) (f : Frame) r f' :
  stem_of x ∉ seen f ->
  process b args x f = (r, f') ->
  seen f' = {[stem_of x]} ∪ seen f /\
  (forall p, p ∉ outputs args (stem_of x) ->
             files (world f') !! p = files (world f) !! p) /\
  match r with
  | Ok _ =>
      sheet f' = mkSheet (name (sheet f)) (author (sheet f)) (description (sheet f))
                   (Py.setitem (objects (sheet f)) (stem_of x)
                               ("description " +:+ stem_of x))
  | Raise _ => sheet f' = sheet f
  end.
Proof.
  intros Hs. unfold process, mbind, Run_bind, get_frame. fold (stem_of x).
  rewrite bool_decide_eq_false_2 by done.
  unfold seen_add, check_call_convert, check_output_identify, unpack_dimensions,
    read_bytes, write, objects_setitem, set_files, raise,
    mbind, mret, Run_bind, Run_ret, get_frame.
  cbn [world files seen sheet stdout].
  change (List.last (convert_cmd args (PurePath.of_string x)) "")
    with (png_file args (stem_of x)).
  repeat first
    [ rewrite verbose_print_eq; cbn [world files seen sheet stdout]
    | rewrite tostring_built_shape; fold (stem_of x); cbn [world files seen sheet stdout]
    | match goal with
      | |- context [match ?y with _ => _ end] =>
          lazymatch y with
          | context [verbose_print] => fail
          | context [tostring_built] => fail
          | context [match _ with _ => _ end] => fail
          | _ => destruct y eqn:?
          end
      end; cbn [world files seen sheet stdout] ].
  all: intros [= <- <-]; cbn [world files seen sheet stdout].
  all: (split; [reflexivity|]); (split; [|reflexivity]); intros p Hp.
  all: repeat first
         [ rewrite (lookup_outside args (stem_of x) p _ _ _ Hp (png_file_output _ _))
         | rewrite (lookup_outside args (stem_of x) p _ _ _ Hp (new_path_output _ _))
         | rewrite (lookup_outside args (stem_of x) p _ _ _ Hp (shape_path_output _ _)) ].
  all: reflexivity.
Qed.

Lemma process_convert_fails (b : Backend) (args : Args) (x : string) (f : Frame) rc out :
  stem_of x ∉ seen f ->
  convert b (convert_cmd args (PurePath.of_string x)) (files (world f)) = (rc, out) ->
  rc <> 0 ->
  process b args x f =
  (Raise (CalledProcessError rc (convert_cmd args (PurePath.of_string x))),
   mkFrame ({[stem_of x]} ∪ seen f) (sheet f)
     (mkWorld (after_convert args (stem_of x) out (files (world f)))
              (stdout (world f)))).
Proof.
  intros Hs Hc Hrc. unfold process, mbind, Run_bind, get_frame. fold (stem_of x).
  rewrite bool_decide_eq_false_2 by done.
  unfold seen_add, check_call_convert, set_files, raise, mbind, mret, Run_bind, Run_ret,
    get_frame.
  cbn [world files seen sheet stdout]. rewrite Hc.
  rewrite (bool_decide_eq_false_2 (rc = 0)) by done.
  destruct f as [sn sh [fs o]]. by destruct out.
Qed.

Lemma process_identify_fails (b : Backend) (args : Args) (x : string) (f : Frame)
    out rc o :
  stem_of x ∉ seen f ->
  convert b (convert_cmd args (PurePath.of_string x)) (files (world f)) = (0, out) ->
  identify b (identify_cmd args (stem_of x))
    (after_convert args (stem_of x) out (files (world f))) = (rc, o) ->
  rc <> 0 ->
  process b args x f =
  (Raise (CalledProcessError rc (identify_cmd args (stem_of x))),
   mkFrame ({[stem_of x]} ∪ seen f) (sheet f)
     (mkWorld (after_convert args (stem_of x) out (files (world f)))
              (stdout (world f) ++
               verbose_lines args 1 ("INFO: wrote " +:+ png_file args (stem_of x))))).
Proof.
  intros Hs Hc Hi Hrc. unfold process, mbind, Run_bind, get_frame. fold (stem_of x).
  rewrite bool_decide_eq_false_2 by done.
  unfold seen_add, check_call_convert, check_output_identify, set_files, raise,
    mbind, mret, Run_bind, Run_ret, get_frame.
  cbn [world files seen sheet stdout]. rewrite Hc.
  unfold after_convert in Hi.
  destruct f as [sn sh [fs o']]. cbn [world files seen sheet stdout] in *.
  rewrite (bool_decide_eq_true_2 (0 = 0)) by done.
  destruct out; cbn [world files seen sheet stdout];
    rewrite verbose_print_eq; cbn [world files seen sheet stdout];
    change (List.last (convert_cmd args (PurePath.of_string x)) "")
      with (png_file args (stem_of x)) in *;
    rewrite Hi; by rewrite (bool_decide_eq_false_2 (rc = 0)).
Qed.

(** ** The loop *)

Lemma setitem_fresh {V} (d : Py.dict V) (k : string) (v : V) :
  k ∉ Py.keys d -> Py.setitem d k v = d ++ [(k, v)].
Proof.
  unfold Py.keys. induction d as [|[k' v'] d IH]; simpl; [done|].
  intros H. apply not_elem_of_cons in H as [Hk Hd].
  rewrite decide_False by done. by rewrite IH.
Qed.

Lemma consistent_initial (b : Backend) (args : Args) (w : World) :
  consistent (initial b args w).
Proof. split; [|done]. intros k H. by apply elem_of_nil in H. Qed.

(** One iteration keeps the frame consistent.  It touches no file other
    than the three of its stem, and none at all when the stem was seen
    before.  When it returns, the stem is entered in the sheet if it was
    new; when it raises, the sheet is as it was. *)
Lemma process_consistent (b : Backend) (args : Args) (x : string) (f : Frame) r f' :
  consistent f ->
  process b args x f = (r, f') ->
  consistent f' /\
  seen f' = {[stem_of x]} ∪ seen f /\
  (forall p, stem_of x ∈ seen f \/ p ∉ outputs args (stem_of x) ->
             files (world f') !! p = files (world f) !! p) /\
  match r with
  | Ok _ => processed f' = processed f ++ resolve (seen f) [stem_of x]
  | Raise _ => processed f' = processed f /\ stem_of x ∉ seen f
  end.
Proof.
  intros [Hin Hobj] H. destruct (decide (stem_of x ∈ seen f)) as [Hs|Hs].
  - rewrite process_skip, verbose_print_eq in H by done.
    injection H as Hr Hf. subst r f'.
    cbn [seen sheet world files]. unfold resolve. rewrite bool_decide_eq_true_2 by done.
    rewrite app_nil_r. split; [by split|]. split; [set_solver|]. by split.
  - apply process_fresh in H as (Hseen & Hfiles & Hsheet); [|done].
    assert (stem_of x ∉ processed f) as Hnew by (intros ?; by apply Hs, Hin).
    unfold resolve. rewrite bool_decide_eq_false_2 by done.
    destruct r as [[]|e].
    + assert (processed f' = processed f ++ [stem_of x]) as Hp.
      { unfold processed, Py.keys in *. rewrite Hsheet. cbn [objects].
        rewrite setitem_fresh by done. by rewrite fmap_app. }
      split; [split|split; [done|split; [|done]]].
      * intros k. rewrite Hp, Hseen, elem_of_app, list_elem_of_singleton.
        intros [Hk| ->]; [|set_solver]. apply Hin in Hk. set_solver.
      * rewrite Hp, Hsheet. cbn [objects]. rewrite setitem_fresh by done.
        rewrite Hobj, map_app. done.
      * intros p [?|Hp']; [done|by apply Hfiles].
    + assert (processed f' = processed f) as Hp.
      { unfold processed. by rewrite Hsheet. }
      split; [split|split; [done|split; [|done]]].
      * intros k Hk. rewrite Hp in Hk. rewrite Hseen. apply Hin in Hk. set_solver.
      * by rewrite Hp, Hsheet.
      * intros p [?|Hp']; [done|by apply Hfiles].
Qed.

Lemma loop_app (b : Backend) (args : Args) (l1 l2 : list string) (f : Frame) :
  loop b args (l1 ++ l2) f =
  match loop b args l1 f with
  | (Ok _, f1) => loop b args l2 f1
  | (Raise e, f1) => (Raise e, f1)
  end.
Proof.
  revert f. induction l1 as [|x l1 IH]; intros f; [done|].
  cbn [loop app]. unfold mbind, Run_bind in *.
  destruct (process b args x f) as [[[]|e] f1]; [apply IH|done].
Qed.

Lemma resolve_app (s : gset string) (l1 l2 : list string) :
  resolve s (l1 ++ l2) = resolve s l1 ++ resolve (s ∪ list_to_set l1) l2.
Proof.
  revert s. induction l1 as [|x l1 IH]; intros s; simpl.
  - f_equal. set_solver.
  - destruct (bool_decide (x ∈ s)) eqn:Hx.
    + rewrite IH. f_equal. f_equal. apply bool_decide_eq_true in Hx. set_solver.
    + rewrite IH. simpl. f_equal. f_equal. f_equal. set_solver.
Qed.

(** The loop, from a consistent frame: the inputs it has gone through when
    it stops are a prefix [l1] of the list, the whole list when it returns;
    the stems entered in the sheet are the new stems of that prefix, in
    order; and when it raises, it does so in the iteration of an input [x]
    with a new stem, the inputs before [x] having gone through. *)
Lemma loop_consistent (b : Backend) (args : Args) (l : list string) (f : Frame) r f' :
  consistent f ->
  loop b args l f = (r, f') ->
  consistent f' /\
  (forall p, (forall x, x ∈ l -> p ∉ outputs args (stem_of x)) ->
             files (world f') !! p = files (world f) !! p) /\
  match r with
  | Ok _ =>
      processed f' = processed f ++ resolve (seen f) (map stem_of l) /\
      seen f' = seen f ∪ list_to_set (map stem_of l)
  | Raise e =>
      exists l1 x l2 f1,
        l = l1 ++ x :: l2 /\
        loop b args l1 f = (Ok tt, f1) /\
        consistent f1 /\
        (stem_of x ∉ seen f1) /\
        process b args x f1 = (Raise e, f') /\
        processed f' = processed f ++ resolve (seen f) (map stem_of l1) /\
        seen f1 = seen f ∪ list_to_set (map stem_of l1)
  end.
Proof.
  revert f. induction l as [|x l IH]; intros f Hf H.
  - injection H as <- <-. split; [done|]. split; [done|]. simpl. split.
    + by rewrite app_nil_r.
    + set_solver.
  - cbn [loop] in H. unfold mbind, Run_bind in H.
    destruct (process b args x f) as [[[]|e] f1] eqn:Hp.
    + pose proof Hp as Hp0.
      apply process_consistent in Hp as (Hf1 & Hs1 & Hfiles1 & Hp1); [|done].
      apply IH in H as (Hf' & Hfiles & Hr); [|done].
      split; [done|]. split.
      { intros p Hp. rewrite Hfiles by (intros y Hy; apply Hp; set_solver).
        apply Hfiles1. right. apply Hp. set_solver. }
      assert (forall k, resolve (seen f) (stem_of x :: k)
                        = resolve (seen f) [stem_of x] ++ resolve (seen f1) k) as Hres.
      { intros k. change (stem_of x :: k) with ([stem_of x] ++ k).
        rewrite resolve_app. f_equal. f_equal. rewrite Hs1. set_solver. }
      destruct r as [[]|e].
      * destruct Hr as [Hr1 Hr2]. split.
        -- rewrite Hr1, Hp1, <- app_assoc. f_equal. cbn [map]. by rewrite (Hres (map stem_of l)).
        -- rewrite Hr2, Hs1. set_solver.
      * destruct Hr as (l1 & y & l2 & f2 & -> & Hl1 & Hf2 & Hy & Hpy & Hpr & Hs2).
        exists (x :: l1), y, l2, f2. split_and!; try done.
        -- cbn [loop]. unfold mbind, Run_bind. by rewrite Hp0.
        -- rewrite Hpr, Hp1, <- app_assoc. f_equal. cbn [map]. by rewrite (Hres (map stem_of l1)).
        -- rewrite Hs2, Hs1. set_solver.
    + injection H as <- <-. pose proof Hp as Hp0.
      apply process_consistent in Hp as (Hf1 & Hs1 & Hfiles1 & Hp1 & Hnew); [|done].
      split; [done|]. split.
      { intros p Hp. apply Hfiles1. right. apply Hp. set_solver. }
      exists [], x, l, f. split_and!; try done.
      * rewrite Hp1. simpl. by rewrite app_nil_r.
      * simpl. set_solver.
Qed.

(** ** The whole run *)

Lemma resolve_first_occurrences (s : gset string) (l : list string) :
  resolve s l = filter (fun y => y ∉ s) (first_occurrences l).
Proof.
  revert s. induction l as [|x l IH]; intros s; [done|]. simpl.
  destruct (bool_decide (x ∈ s)) eqn:Hx.
  - apply bool_decide_eq_true in Hx. rewrite filter_cons_False by (intros H; by apply H).
    rewrite IH, list_filter_filter. apply list_filter_iff. intros y. split; [|tauto].
    intros Hy. split; [done|]. by intros ->.
  - apply bool_decide_eq_false in Hx. rewrite filter_cons_True by done. f_equal.
    rewrite IH, list_filter_filter. apply list_filter_iff. intros y. set_solver.
Qed.

Lemma resolve_empty (l : list string) : resolve ∅ l = first_occurrences l.
Proof.
  rewrite resolve_first_occurrences. induction (first_occurrences l) as [|x k IH]; [done|].
  rewrite filter_cons_True by set_solver. by rewrite IH.
Qed.

Lemma elem_of_first_occurrences (l : list string) (x : string) :
  x ∈ first_occurrences l <-> x ∈ l.
Proof.
  induction l as [|y l IH]; [done|]. simpl.
  rewrite !elem_of_cons, list_elem_of_filter, IH.
  destruct (decide (x = y)); naive_solver.
Qed.

Lemma first_occurrences_NoDup (l : list string) : NoDup (first_occurrences l).
Proof.
  induction l as [|y l IH]; simpl; [constructor|]. constructor.
  - rewrite list_elem_of_filter. naive_solver.
  - by apply NoDup_filter.
Qed.

Lemma emit_sheet_eq (args : Args) (f : Frame) :
  emit_sheet args f =
  (Ok tt,
   mkFrame (seen f) (sheet f)
     (mkWorld (<[PurePath.to_string (sheet_path args) :=
                   ET.tostring (sheet_tree (sheet f))]> (files (world f)))
              (stdout (world f) ++
               verbose_lines args 1
                 ("INFO: wrote " +:+ PurePath.to_string (sheet_path args))))).
Proof.
  unfold emit_sheet, tostring_built, write, set_files, mbind, mret, Run_bind, Run_ret,
    get_frame.
  rewrite build_sheet_tree. cbn [world files seen sheet stdout].
  by rewrite verbose_print_eq.
Qed.

Lemma main_eq (b : Backend) (args : Args) (w : World) :
  main b args w =
  match loop b args (svg_file args) (initial b args w) with
  | (Ok _, f1) => emit_sheet args f1
  | (Raise e, f1) => (Raise e, f1)
  end.
Proof. reflexivity. Qed.

(** A run that returns has converted the distinct stems of its inputs, in
    the order of their first occurrence, and written the sheet last. *)
Lemma main_returns (b : Backend) (args : Args) (w : World) (f : Frame) :
  main b args w = (Ok tt, f) ->
  processed f = first_occurrences (map stem_of (svg_file args)) /\
  objects (sheet f) = map entry (processed f) /\
  files (world f) !! PurePath.to_string (sheet_path args)
    = Some (ET.tostring (sheet_tree (sheet f))).
Proof.
  rewrite main_eq. destruct (loop _ _ _ _) as [[[]|e] f1] eqn:Hl; [|done].
  rewrite emit_sheet_eq. intros [= <-]. cbn [world files sheet processed].
  apply loop_consistent in Hl as ([_ Hobj] & _ & Hp & _); [|apply consistent_initial].
  rewrite resolve_empty in Hp.
  repeat split; [exact Hp|exact Hobj|]. by rewrite lookup_insert_eq.
Qed.

(** A run that raises does so in the iteration of an input [x] whose stem
    is new, after the inputs [l1] before it have gone through; the loop is
    left at once, and the sheet is not written. *)
Lemma main_raises (b : Backend) (args : Args) (w : World) (e : Exception) (f : Frame) :
  main b args w = (Raise e, f) ->
  exists l1 x l2 f1,
    svg_file args = l1 ++ x :: l2 /\
    loop b args l1 (initial b args w) = (Ok tt, f1) /\
    consistent f1 /\
    (stem_of x ∉ seen f1) /\
    process b args x f1 = (Raise e, f) /\
    processed f = first_occurrences (map stem_of l1) /\
    seen f1 = list_to_set (map stem_of l1).
Proof.
  rewrite main_eq. destruct (loop _ _ _ _) as [[[]|e'] f1] eqn:Hl.
  { by rewrite emit_sheet_eq. }
  intros [= <- <-].
  apply loop_consistent in Hl as (_ & _ & Hr); [|apply consistent_initial].
  destruct Hr as (l1 & x & l2 & f2 & ? & ? & ? & ? & ? & Hp & Hs).
  exists l1, x, l2, f2. cbn [initial seen] in Hp. rewrite resolve_empty in Hp.
  split_and!; try done.
  rewrite Hs. cbn [initial seen]. set_solver.
Qed.

(** The other way round: when the iteration of an input raises, so does the
    run, with the frame of that iteration. *)
Lemma main_aborts (b : Backend) (args : Args) (w : World) l1 x l2 f1 e f :
  svg_file args = l1 ++ x :: l2 ->
  loop b args l1 (initial b args w) = (Ok tt, f1) ->
  process b args x f1 = (Raise e, f) ->
  main b args w = (Raise e, f).
Proof.
  intros Hl H1 Hx. rewrite main_eq, Hl, loop_app, H1.
  cbn [loop]. unfold mbind, Run_bind. by rewrite Hx.
Qed.

(** ** The shape document *)

Lemma read_point_tree (p : Z * Z) : read_point (point_tree p) = Some p.
Proof.
  destruct p as [x y]. unfold read_point, int_attribute, point_tree, ET.get. simpl.
  rewrite !int_str. done.
Qed.

Lemma read_points_trees (l : list (Z * Z)) : mapM read_point (map point_tree l) = Some l.
Proof. apply mapM_fmap_Some. apply read_point_tree. Qed.

(** C1: for positive [width] and [height], the connections block of the
    shape [build_shape] returns holds exactly nine points, in this order:
    (0,0), (0,width/2), (0,width), (height/2,0), (height,0),
    (width/2,height), (width/2,height/2), (width,height/2), (width,height),
    every halving being floor division.  The points are given both as the
    [point] elements written and as the integers read back from their [x]
    and [y] attributes. *)
Theorem build_shape_connections (svg_path : PurePath.Path) (width height : Z) :
  0 < width -> 0 < height ->
  exists xshape xconns,
    ET.run (build_shape svg_path width height) = Some xshape /\
    ET.findall "connections" xshape = [xconns] /\
    ET.tree_children xconns =
      map point_tree
        [(0, 0); (0, width / 2); (0, width); (height / 2, 0); (height, 0);
         (width / 2, height); (width / 2, height / 2); (width, height / 2);
         (width, height)] /\
    mapM read_point (ET.findall "point" xconns) =
      Some [(0, 0); (0, width / 2); (0, width); (height / 2, 0); (height, 0);
            (width / 2, height); (width / 2, height / 2); (width, height / 2);
            (width, height)].
Proof.
  intros _ _. eexists _, _. split; [apply build_shape_tree|].
  split; [reflexivity|]. split; [reflexivity|].
  apply (read_points_trees (connection_points width height)).
Qed.

(** The 22 by 22 thumbnail of the design document. *)
Lemma build_shape_connections_22 :
  exists xshape xconns,
    ET.run (build_shape (PurePath.of_string "a.svg") 22 22) = Some xshape /\
    ET.findall "connections" xshape = [xconns] /\
    ET.tree_children xconns =
      map point_tree
        [(0, 0); (0, 11); (0, 22); (11, 0); (22, 0); (11, 22); (11, 11); (22, 11);
         (22, 22)] /\
    mapM read_point (ET.findall "point" xconns) =
      Some [(0, 0); (0, 11); (0, 22); (11, 0); (22, 0); (11, 22); (11, 11); (22, 11);
            (22, 22)].
Proof.
  apply (build_shape_connections (PurePath.of_string "a.svg") 22 22); reflexivity.
Defined.

(** The 10 by 7 thumbnail: the fourth point halves the height, the sixth
    the width. *)
Example connections_10_7 :
  ET.run (build_shape (PurePath.of_string "a.svg") 10 7) ≫= read_points
  = Some [(0, 0); (0, 5); (0, 10); (3, 0); (7, 0); (5, 7); (5, 3); (10, 3); (10, 7)].
Proof. vm_compute. reflexivity. Qed.

(** C9: [build_shape] returns for every pair of integers, zero and negative
    ones included, and the connections block of what it returns holds
    exactly nine [point] elements. *)
Theorem build_shape_total (svg_path : PurePath.Path) (width height : Z) :
  exists xshape xconns,
    ET.run (build_shape svg_path width height) = Some xshape /\
    ET.findall "connections" xshape = [xconns] /\
    ET.findall "point" xconns = ET.tree_children xconns /\
    length (ET.tree_children xconns) = 9%nat.
Proof.
  eexists _, _. split; [apply build_shape_tree|]. repeat split; reflexivity.
Qed.

(** Zero and negative sizes, run. *)
Example connections_degenerate :
  ET.run (build_shape (PurePath.of_string "a.svg") 0 (-3)) ≫= read_points
  = Some [(0, 0); (0, 0); (0, 0); (-2, 0); (-3, 0); (0, -3); (0, -2); (0, -2); (0, -3)].
Proof. vm_compute. reflexivity. Qed.

(** ** The sheet document *)

(** C8: the root of the sheet [build_sheet] returns has a [name], a
    [created_by] and a [description] child exactly when the [name], the
    [author] and the [description] of the sheet are not empty, and the child
    then carries the string as its text. *)
Theorem build_sheet_optional_fields (sheet : Sheet) :
  exists xsheet,
    ET.run (build_sheet sheet) = Some xsheet /\
    ET.findall "name" xsheet =
      match name sheet with
      | EmptyString => []
      | _ => [ET.Elem "name" [] (Some (name sheet)) []]
      end /\
    ET.findall "created_by" xsheet =
      match author sheet with
      | EmptyString => []
      | _ => [ET.Elem "created_by" [] (Some (author sheet)) []]
      end /\
    ET.findall "description" xsheet =
      match description sheet with
      | EmptyString => []
      | _ => [ET.Elem "description" [] (Some (description sheet)) []]
      end.
Proof.
  exists (sheet_tree sheet). split; [apply build_sheet_tree|].
  destruct sheet as [[|? ?] [|? ?] [|? ?] objs]; repeat split; reflexivity.
Qed.

(** C10: the root of the sheet [build_sheet] returns always has one
    [contents] child; it holds one [object] element per entry of the
    [objects] mapping, and none when the mapping is empty. *)
Theorem build_sheet_contents (sheet : Sheet) :
  (exists xsheet,
     ET.run (build_sheet sheet) = Some xsheet /\
     ET.findall "contents" xsheet =
       [ET.Elem "contents" [] None (map object_tree (objects sheet))]) /\
  (exists xsheet,
     ET.run (build_sheet (mkSheet (name sheet) (author sheet) (description sheet) []))
       = Some xsheet /\
     ET.findall "contents" xsheet = [ET.Elem "contents" [] None []]).
Proof.
  split; eexists; (split; [apply build_sheet_tree|]).
  - destruct sheet as [[|? ?] [|? ?] [|? ?] objs]; reflexivity.
  - destruct sheet as [[|? ?] [|? ?] [|? ?] objs]; reflexivity.
Qed.

(** ** Input resolution *)

Lemma processed_stems (b : Backend) (args : Args) (w : World) l1 f1 :
  loop b args l1 (initial b args w) = (Ok tt, f1) ->
  consistent f1 /\
  processed f1 = first_occurrences (map stem_of l1) /\
  seen f1 = list_to_set (map stem_of l1) /\
  (forall s, s ∈ processed f1 -> no_sep s /\ s ∈ seen f1).
Proof.
  intros H. apply loop_consistent in H as (Hc & _ & Hp & Hs); [|apply consistent_initial].
  cbn [initial seen processed sheet objects Py.keys] in Hp, Hs.
  rewrite resolve_empty in Hp. simpl in Hp.
  split_and!; try done.
  - rewrite Hs. set_solver.
  - intros s Hin. split; [|by apply Hc].
    rewrite Hp in Hin.
    apply elem_of_first_occurrences, list_elem_of_fmap in Hin as (y & -> & _).
    apply stem_no_sep.
Qed.

(** C2: the stems a run has converted when it returns are the distinct
    stems of its inputs, in the order of their first occurrence, each once;
    at any end of the run they are a prefix of these, free of repetition.
    The iteration of an input whose stem was seen before returns without
    raising and leaves the set of seen stems, the sheet and every file as
    they were; it only prints the warning, if anything. *)
Theorem duplicate_stems_skipped (b : Backend) (args : Args) (w : World)
    (r : Result unit) (f : Frame) :
  main b args w = (r, f) ->
  (r = Ok tt -> processed f = first_occurrences (map stem_of (svg_file args))) /\
  processed f `prefix_of` first_occurrences (map stem_of (svg_file args)) /\
  NoDup (processed f) /\
  (forall f0 x, stem_of x ∈ seen f0 ->
     exists f1, process b args x f0 = (Ok tt, f1) /\
                seen f1 = seen f0 /\ sheet f1 = sheet f0 /\
                files (world f1) = files (world f0) /\
                stdout (world f1) = stdout (world f0) ++
                  verbose_lines args 2 ("WARN: ignoring duplicate " +:+ stem_of x)).
Proof.
  intros H.
  assert (processed f `prefix_of` first_occurrences (map stem_of (svg_file args))
          /\ (r = Ok tt -> processed f = first_occurrences (map stem_of (svg_file args))))
    as [Hpre Heq].
  { destruct r as [[]|e].
    - apply main_returns in H as (-> & _). done.
    - apply main_raises in H as (l1 & x & l2 & f1 & -> & _ & _ & _ & _ & -> & _).
      split; [|done]. rewrite <- !resolve_empty, map_app, resolve_app. by eexists. }
  split_and!; try done.
  - destruct Hpre as [k Hk]. pose proof (first_occurrences_NoDup (map stem_of (svg_file args))) as Hn.
    rewrite Hk in Hn. by apply NoDup_app in Hn as [? _].
  - intros f0 x Hx. rewrite process_skip, verbose_print_eq by done. by eexists.
Qed.

Lemma duplicate_stems_skipped_demo :
  main demo_backend (demo_args None) demo_world
    = (Ok tt, (main demo_backend (demo_args None) demo_world).2) /\
  processed (main demo_backend (demo_args None) demo_world).2 = ["a"; "b"].
Proof.
  split; [vm_compute; reflexivity|].
  apply (duplicate_stems_skipped demo_backend (demo_args None) demo_world (Ok tt)
           (main demo_backend (demo_args None) demo_world).2);
    vm_compute; reflexivity.
Defined.

(** ** The sheet of a run *)

(** C4: when the run returns, the file at the path of the sheet is the
    serialization of the sheet [build_sheet] returns for the final [Sheet];
    the [object] entries of its [contents] block are those of the stems
    converted, in the order of conversion, each with the stem as its [name]
    attribute and a [description] child whose text is ["description "]
    followed by the stem. *)
Theorem sheet_document_entries (b : Backend) (args : Args) (w : World) (f : Frame) :
  main b args w = (Ok tt, f) ->
  exists xsheet xcontents,
    ET.run (build_sheet (sheet f)) = Some xsheet /\
    files (world f) !! PurePath.to_string (sheet_path args) = Some (ET.tostring xsheet) /\
    ET.findall "contents" xsheet = [xcontents] /\
    ET.findall "object" xcontents = ET.tree_children xcontents /\
    ET.tree_children xcontents =
      map (fun stem =>
             ET.Elem "object" [("name", stem)] None
               [ET.Elem "description" [] (Some ("description " +:+ stem)) []])
          (processed f) /\
    processed f = first_occurrences (map stem_of (svg_file args)).
Proof.
  intros H. apply main_returns in H as (Hp & Hobj & Hfile).
  exists (sheet_tree (sheet f)),
         (ET.Elem "contents" [] None (map object_tree (objects (sheet f)))).
  split; [apply build_sheet_tree|]. split; [done|]. split.
  { destruct (sheet f) as [[|? ?] [|? ?] [|? ?] objs]; reflexivity. }
  cbn [ET.tree_children]. rewrite Hobj, map_map. split_and!.
  - unfold ET.findall. cbn [ET.tree_children]. clear.
    induction (processed f) as [|s l IH]; [done|]. simpl. by rewrite IH.
  - reflexivity.
  - exact Hp.
Qed.

Lemma sheet_document_entries_demo :
  exists xsheet xcontents,
    ET.run (build_sheet (sheet (main demo_backend (demo_args None) demo_world).2))
      = Some xsheet /\
    files (world (main demo_backend (demo_args None) demo_world).2) !! "sheets/demo.sheet"
      = Some (ET.tostring xsheet) /\
    ET.findall "contents" xsheet = [xcontents] /\
    ET.findall "object" xcontents = ET.tree_children xcontents /\
    ET.tree_children xcontents =
      [ET.Elem "object" [("name", "a")] None
         [ET.Elem "description" [] (Some "description a") []];
       ET.Elem "object" [("name", "b")] None
         [ET.Elem "description" [] (Some "description b") []]] /\
    processed (main demo_backend (demo_args None) demo_world).2 = ["a"; "b"].
Proof.
  apply (sheet_document_entries demo_backend (demo_args None) demo_world
           (main demo_backend (demo_args None) demo_world).2).
  vm_compute. reflexivity.
Defined.

(** ** Failure of an external command *)

(** The frame a run is left in when an external command fails in the
    iteration of [x]: the exception is that of the command, the files are
    those of the inputs before [x] with whatever the rasterizer left at the
    thumbnail path of [x], and the sheet has not been touched. *)
Lemma main_command_fails (b : Backend) (args : Args) (w : World)
    l1 x f1 rc out rc' :
  command_fails b args w l1 x f1 rc out rc' ->
  exists f,
    main b args w = (Raise (command_error args x rc rc'), f) /\
    files (world f) = after_convert args (stem_of x) out (files (world f1)) /\
    sheet f = sheet f1.
Proof.
  intros ([l2 Hl] & Hl1 & Hx & Hc & [o Hi] & [Hrc|[-> Hrc']]).
  - eexists. split.
    + eapply main_aborts; [exact Hl|exact Hl1|].
      unfold command_error. rewrite bool_decide_eq_false_2 by done.
      by apply process_convert_fails.
    + done.
  - eexists. split.
    + eapply main_aborts; [exact Hl|exact Hl1|].
      unfold command_error. rewrite bool_decide_eq_true_2 by done.
      by eapply process_identify_fails.
    + done.
Qed.

Lemma after_convert_other (args : Args) (s : string) out (fs : gmap string string) p :
  p <> png_file args s -> after_convert args s out fs !! p = fs !! p.
Proof. intros H. destruct out; [|done]. simpl. by rewrite lookup_insert_ne. Qed.

(** C6, as the code has it: when the rasterizer or the introspection
    command fails in the iteration of the N-th distinct input, the run ends
    at once with the [CalledProcessError] of that command.  The files of
    the inputs before it are as they were, no copy of the source and no
    shape is written for it, nothing is done for the inputs after it, and
    the path of the sheet holds what it held when the run started.  The one
    path that may differ from before the iteration is that of the thumbnail
    of the N-th input: it holds what the rasterizer left there, which is the
    thumbnail itself when it is the introspection command that failed. *)
Theorem abort_keeps_earlier_outputs (b : Backend) (args : Args) (w : World)
    (l1 : list string) (x : string) (f1 : Frame)
    (rc : Z) (out : option string) (rc' : Z) :
  command_fails b args w l1 x f1 rc out rc' ->
  exists f,
    main b args w = (Raise (command_error args x rc rc'), f) /\
    (forall s p, s ∈ processed f1 -> p ∈ outputs args s ->
                 files (world f) !! p = files (world f1) !! p) /\
    (forall p, p <> png_file args (stem_of x) ->
               files (world f) !! p = files (world f1) !! p) /\
    files (world f) !! png_file args (stem_of x) =
      match out with
      | Some img => Some img
      | None => files (world f1) !! png_file args (stem_of x)
      end /\
    files (world f) !! PurePath.to_string (sheet_path args)
      = files w !! PurePath.to_string (sheet_path args) /\
    processed f = processed f1.
Proof.
  intros H. pose proof H as (_ & Hl1 & Hx & _).
  destruct (main_command_fails _ _ _ _ _ _ _ _ _ H) as (f & Hm & Hfiles & Hsheet).
  exists f. split; [done|]. rewrite Hfiles.
  pose proof (processed_stems _ _ _ _ _ Hl1) as (_ & _ & _ & Hst).
  split_and!.
  - intros s p Hs Hp. apply after_convert_other. intros ->.
    destruct (Hst s Hs) as [Hn Hin].
    assert (stem_of x = s) as <-; [|done].
    eapply outputs_disjoint; [apply stem_no_sep|exact Hn|apply png_file_output|done].
  - intros p Hp. by apply after_convert_other.
  - destruct out; [|done]. simpl. by rewrite lookup_insert_eq.
  - rewrite after_convert_other.
    + apply loop_consistent in Hl1 as (_ & Hfp & _); [|apply consistent_initial].
      apply Hfp. intros y _. apply sheet_path_not_output, stem_no_sep.
    + intros Heq. apply (sheet_path_not_output args (stem_of x)); [apply stem_no_sep|].
      rewrite Heq. apply png_file_output.
  - unfold processed. by rewrite Hsheet.
Qed.

Lemma identify_fails_setting :
  command_fails identify_fails (demo_args None) demo_world [] "a.svg"
    (initial identify_fails (demo_args None) demo_world) 0 (Some "PNG") 1.
Proof.
  unfold command_fails. split; [by eexists|]. split; [reflexivity|].
  split; [vm_compute; set_solver|]. split; [reflexivity|].
  split; [by eexists|]. right. split; [reflexivity|discriminate].
Defined.

Lemma abort_keeps_earlier_outputs_demo :
  command_fails identify_fails (demo_args None) demo_world [] "a.svg"
    (initial identify_fails (demo_args None) demo_world) 0 (Some "PNG") 1 /\
  exists f,
    main identify_fails (demo_args None) demo_world
      = (Raise (CalledProcessError 1
                  ["identify"; "-format"; "%w %h"; "shapes/demo/a.png"]), f) /\
    files (world f) !! "shapes/demo/a.png" = Some "PNG" /\
    files (world f) !! "sheets/demo.sheet" = None.
Proof.
  split; [exact identify_fails_setting|].
  destruct (abort_keeps_earlier_outputs _ _ _ _ _ _ _ _ _ identify_fails_setting)
    as (f & Hm & _ & _ & Hpng & Hsheet & _).
  exists f. split; [exact Hm|]. split; [exact Hpng|exact Hsheet].
Defined.

(** C6, as the design document words it, fails: with a rasterizer that
    succeeds and an introspection command that fails on the first input,
    the thumbnail of that input is on disk when the run ends. *)
Lemma abort_leaves_thumbnail : ~ abort_leaves_nothing.
Proof.
  intros H.
  destruct (H _ _ _ _ _ _ _ _ _ identify_fails_setting) as (e & f & Hm & Hf).
  assert (files (world (main identify_fails (demo_args None) demo_world).2)
            !! "shapes/demo/a.png" = Some "PNG") as Hpng by (vm_compute; reflexivity).
  rewrite Hm in Hpng. cbn [snd] in Hpng. rewrite Hf in Hpng.
  vm_compute in Hpng. discriminate.
Qed.

(** ** The exit status *)

Lemma first_occurrences_longer (l1 : list string) (x : string) (l2 : list string) :
  x ∉ l1 ->
  first_occurrences (l1 ++ x :: l2) <> first_occurrences l1.
Proof.
  intros Hx H. rewrite <- !resolve_empty, resolve_app in H. simpl in H.
  rewrite bool_decide_eq_false_2 in H by set_solver.
  apply (f_equal length) in H. rewrite length_app in H. simpl in H. lia.
Qed.

Lemma convert_fails_setting :
  command_fails convert_fails (demo_args None) demo_world [] "a.svg"
    (initial convert_fails (demo_args None) demo_world) 2 None 0.
Proof.
  unfold command_fails. split; [by eexists|]. split; [reflexivity|].
  split; [vm_compute; set_solver|]. split; [reflexivity|].
  split; [by eexists|]. left. discriminate.
Defined.

(** C7, as the code has it: the status is 0 exactly when the run returns,
    which is exactly when every distinct stem of the inputs has been
    converted; it is 1 otherwise.  When an external command fails, the run
    ends with the [CalledProcessError] that carries the exit status of that
    command, and the status of the process is 1 whatever that status was. *)
Theorem exit_status_of_run (b : Backend) (args : Args) (w : World)
    (r : Result unit) (f : Frame) :
  main b args w = (r, f) ->
  (exit_status r = 0 <-> r = Ok tt) /\
  (exit_status r = 0 <->
     processed f = first_occurrences (map stem_of (svg_file args))) /\
  (exit_status r = 0 \/ exit_status r = 1) /\
  (forall l1 x f1 rc out rc',
     command_fails b args w l1 x f1 rc out rc' ->
     r = Raise (command_error args x rc rc') /\
     (exists c cmd, command_error args x rc rc' = CalledProcessError c cmd /\
                    c <> 0 /\ (c = rc \/ c = rc')) /\
     exit_status r = 1).
Proof.
  intros H. split; [|split; [|split]].
  - destruct r as [[]|e]; simpl; split; done.
  - destruct r as [[]|e]; simpl.
    + apply main_returns in H as (-> & _). done.
    + split; [done|]. intros Hp.
      apply main_raises in H as (l1 & x & l2 & f1 & Hl & _ & _ & Hx & _ & Hp1 & Hs).
      rewrite Hp1, Hl, map_app in Hp. symmetry in Hp.
      apply first_occurrences_longer in Hp; [done|].
      rewrite Hs in Hx. set_solver.
  - destruct r; simpl; auto.
  - intros l1 x f1 rc out rc' Hf.
    destruct (main_command_fails _ _ _ _ _ _ _ _ _ Hf) as (f' & Hm & _).
    rewrite H in Hm. injection Hm as -> _.
    split; [done|]. split; [|done].
    destruct Hf as (_ & _ & _ & _ & _ & [Hrc|[-> Hrc']]); unfold command_error.
    + rewrite bool_decide_eq_false_2 by done. eexists _, _. eauto.
    + rewrite bool_decide_eq_true_2 by done. eexists _, _. eauto.
Qed.

Lemma exit_status_of_run_demo :
  main convert_fails (demo_args None) demo_world
    = (Raise (CalledProcessError 2
                ["convert"; "a.svg"; "-resize"; "22x22"; "shapes/demo/a.png"]),
       (main convert_fails (demo_args None) demo_world).2) /\
  exit_status (main convert_fails (demo_args None) demo_world).1 = 1.
Proof.
  split; [vm_compute; reflexivity|].
  destruct (exit_status_of_run convert_fails (demo_args None) demo_world
              (main convert_fails (demo_args None) demo_world).1
              (main convert_fails (demo_args None) demo_world).2)
    as (_ & _ & _ & H); [vm_compute; reflexivity|].
  exact (proj2 (proj2 (H _ _ _ _ _ _ convert_fails_setting))).
Defined.

(** C7, as the design document words it, fails: a rasterizer that exits
    with status 2 makes the process exit with status 1. *)
Lemma exit_status_not_propagated : ~ exit_status_propagated.
Proof.
  intros H.
  specialize (H convert_fails (demo_args None) demo_world 2
                ["convert"; "a.svg"; "-resize"; "22x22"; "shapes/demo/a.png"]
                (main convert_fails (demo_args None) demo_world).2).
  assert (exit_status (main convert_fails (demo_args None) demo_world).1 = 1) as E
    by (vm_compute; reflexivity).
  rewrite H in E; [discriminate|]. vm_compute. reflexivity.
Qed.

(** ** The verbosity flag *)

Lemma verbose_lines_any_flag (args : Args) (v level : Z) (msg : string) :
  verbosity args = Some v -> 1 <= v -> 1 <= level ->
  verbose_lines args level msg = [msg].
Proof.
  intros Hv H1 H2. unfold verbose_lines. rewrite Hv.
  rewrite bool_decide_eq_false_2 by lia. by rewrite bool_decide_eq_true_2 by lia.
Qed.

(** C5 at its failing input: with the flag given once, the run of the
    inputs [a.svg], [b.svg], [a.svg] prints the warning about the duplicate
    among its messages, and prints exactly what it prints with the flag
    given twice; without the flag it prints nothing.  The design document
    has the warning printed from two flags on only. *)
Theorem single_flag_prints_warning :
  stdout (world (main demo_backend (demo_args (Some 1)) demo_world).2) =
    ["INFO: wrote shapes/demo/a.png"; "INFO: wrote shapes/demo/a.svg";
     "INFO: wrote shapes/demo/a.shape"; "INFO: wrote shapes/demo/b.png";
     "INFO: wrote shapes/demo/b.svg"; "INFO: wrote shapes/demo/b.shape";
     "WARN: ignoring duplicate a"; "INFO: wrote sheets/demo.sheet"] /\
  stdout (world (main demo_backend (demo_args (Some 2)) demo_world).2) =
    stdout (world (main demo_backend (demo_args (Some 1)) demo_world).2) /\
  stdout (world (main demo_backend (demo_args None) demo_world).2) = [] /\
  verbose_lines (demo_args (Some 1)) 2 "WARN: ignoring duplicate a"
    <> printed_by_level (demo_args (Some 1)) 2 "WARN: ignoring duplicate a".
Proof. repeat split; try (vm_compute; reflexivity). vm_compute. discriminate. Qed.

(** ** Reading a serialized tree back *)

Import XmlReader.

Lemma run_None (s : string) : run None s = None.
Proof. induction s; simpl; done. Qed.

Lemma run_app (o : option State) (a b : string) :
  run o (a +:+ b) = run (run o a) b.
Proof. revert o. induction a as [|c a IH]; intros o; simpl; [done|]. apply IH. Qed.

Lemma replace_app (c : ascii) (r a b : string) :
  ET.replace c r (a +:+ b) = ET.replace c r a +:+ ET.replace c r b.
Proof.
  induction a as [|d a IH]; simpl; [done|].
  rewrite IH. destruct (Ascii.eqb d c); simpl; [|done]. by rewrite append_assoc.
Qed.

Lemma escape_cdata_app (a b : string) :
  ET.escape_cdata (a +:+ b) = ET.escape_cdata a +:+ ET.escape_cdata b.
Proof. unfold ET.escape_cdata. by rewrite !replace_app. Qed.

Lemma escape_attrib_app (a b : string) :
  ET.escape_attrib (a +:+ b) = ET.escape_attrib a +:+ ET.escape_attrib b.
Proof. unfold ET.escape_attrib. by rewrite !replace_app. Qed.

Lemma feed_plain (S : list Open) m r (c : ascii) :
  Ascii.eqb c ET.cr = false ->
  feed (mkState S m r false) c = step (mkState S m r false) c.
Proof. intros H. unfold feed. simpl. by rewrite H. Qed.

Lemma escape_cdata_char (c : ascii) :
  ET.escape_cdata (String c "") =
  if Ascii.eqb c "&" then "&amp;"
  else if Ascii.eqb c "<" then "&lt;"
  else if Ascii.eqb c ">" then "&gt;"
  else String c "".
Proof.
  unfold ET.escape_cdata. simpl.
  destruct (Ascii.eqb_spec c "&") as [->|H1]; [reflexivity|]. simpl.
  destruct (Ascii.eqb_spec c "<") as [->|H2]; [reflexivity|]. simpl.
  destruct (Ascii.eqb_spec c ">") as [->|H3]; reflexivity.
Qed.

(** One character of text, escaped, is read as that character. *)
Lemma run_text_char (c : ascii) t a x (S : list Open) r :
  text_char c = true ->
  run (Some (mkState (mkOpen t a x [] :: S) Content r false))
      (ET.escape_cdata (String c ""))
  = Some (mkState (mkOpen t a (snoc x c) [] :: S) Content r false).
Proof.
  intros H. rewrite escape_cdata_char.
  destruct (Ascii.eqb_spec c "&") as [->|H1]; [reflexivity|].
  destruct (Ascii.eqb_spec c "<") as [->|H2]; [reflexivity|].
  destruct (Ascii.eqb_spec c ">") as [->|H3]; [reflexivity|].
  unfold text_char in H. apply andb_prop in H as [Hc Hcr].
  apply negb_true_iff in Hcr.
  cbn [run mbind option_bind]. rewrite feed_plain by done.
  unfold step. cbn [mode stack].
  apply Ascii.eqb_neq in H1, H2. rewrite H1, H2.
  unfold data. cbn [stack o_children o_tag o_attrib o_text root after_cr]. by rewrite Hc.
Qed.

Lemma run_text (x : string) t a (S : list Open) r :
  Py.all text_char x = true ->
  forall x0,
    run (Some (mkState (mkOpen t a x0 [] :: S) Content r false)) (ET.escape_cdata x)
    = Some (mkState (mkOpen t a (x0 +:+ x) [] :: S) Content r false).
Proof.
  induction x as [|c x IH]; intros H x0.
  - by rewrite append_nil_r.
  - simpl in H. apply andb_prop in H as [Hc Hx].
    change (String c x) with (String c "" +:+ x).
    rewrite escape_cdata_app, run_app, run_text_char by done.
    rewrite IH by done. unfold snoc. by rewrite append_assoc.
Qed.

Lemma name_char_not_cr (c : ascii) : is_name_char c = true -> Ascii.eqb c ET.cr = false.
Proof. intros H. destruct (Ascii.eqb_spec c ET.cr) as [->|]; [discriminate H|done]. Qed.

Lemma name_start_char (c : ascii) : is_name_start c = true -> is_name_char c = true.
Proof. unfold is_name_char. by intros ->. Qed.

(** A run of name characters, in a mode that collects a name. *)
Lemma run_name (mk : string -> Mode) :
  (forall S r t0 c, is_name_char c = true ->
     step (mkState S (mk t0) r false) c = Some (mkState S (mk (snoc t0 c)) r false)) ->
  forall t' t0 (S : list Open) r,
    Py.all is_name_char t' = true ->
    run (Some (mkState S (mk t0) r false)) t'
    = Some (mkState S (mk (t0 +:+ t')) r false).
Proof.
  intros Hstep. induction t' as [|c t' IH]; intros t0 S r H.
  - by rewrite append_nil_r.
  - simpl in H. apply andb_prop in H as [Hc Ht].
    cbn [run mbind option_bind]. rewrite feed_plain by by apply name_char_not_cr.
    rewrite Hstep, IH by done. unfold snoc. by rewrite append_assoc.
Qed.

Lemma run_start_name t' t0 (S : list Open) r :
  Py.all is_name_char t' = true ->
  run (Some (mkState S (StartName t0) r false)) t'
  = Some (mkState S (StartName (t0 +:+ t')) r false).
Proof.
  apply (run_name StartName). intros S' r' t1 c Hc. unfold step. cbn [mode]. by rewrite Hc.
Qed.

Lemma run_attr_name t a k' k0 (S : list Open) r :
  Py.all is_name_char k' = true ->
  run (Some (mkState S (AttrName t a k0) r false)) k'
  = Some (mkState S (AttrName t a (k0 +:+ k')) r false).
Proof.
  apply (run_name (AttrName t a)). intros S' r' t1 c Hc. unfold step. cbn [mode].
  by rewrite Hc.
Qed.

Lemma run_end_name t' t0 (S : list Open) r :
  Py.all is_name_char t' = true ->
  run (Some (mkState S (EndName t0) r false)) t'
  = Some (mkState S (EndName (t0 +:+ t')) r false).
Proof.
  apply (run_name EndName). intros S' r' t1 c Hc. unfold step. cbn [mode]. by rewrite Hc.
Qed.

Lemma escape_attrib_char (c : ascii) :
  ET.escape_attrib (String c "") =
  if Ascii.eqb c "&" then "&amp;"
  else if Ascii.eqb c "<" then "&lt;"
  else if Ascii.eqb c ">" then "&gt;"
  else if Ascii.eqb c ET.dquote then "&quot;"
  else if Ascii.eqb c ET.cr then "&#13;"
  else if Ascii.eqb c ET.lf then "&#10;"
  else if Ascii.eqb c ET.tab then "&#09;"
  else String c "".
Proof.
  unfold ET.escape_attrib. simpl.
  destruct (Ascii.eqb_spec c "&") as [->|H1]; [reflexivity|]. simpl.
  destruct (Ascii.eqb_spec c "<") as [->|H2]; [reflexivity|]. simpl.
  destruct (Ascii.eqb_spec c ">") as [->|H3]; [reflexivity|]. simpl.
  destruct (Ascii.eqb_spec c ET.dquote) as [->|H4]; [reflexivity|]. simpl.
  destruct (Ascii.eqb_spec c ET.cr) as [->|H5]; [reflexivity|]. simpl.
  destruct (Ascii.eqb_spec c ET.lf) as [->|H6]; [reflexivity|]. simpl.
  destruct (Ascii.eqb_spec c ET.tab) as [->|H7]; reflexivity.
Qed.

(** A white-space character other than tab, line feed and carriage return
    is the space. *)
Lemma space_is_space (c : ascii) :
  is_space c = true -> c <> ET.tab -> c <> ET.lf -> c <> ET.cr -> c = " "%char.
Proof.
  unfold is_space, code. intros H Ht Hl Hc.
  rewrite <- (ascii_nat_embedding c).
  destruct (Nat.eqb_spec (nat_of_ascii c) 32) as [->|]; [done|].
  destruct (Nat.eqb_spec (nat_of_ascii c) 9) as [E|].
  { exfalso. apply Ht. by rewrite <- (ascii_nat_embedding c), E. }
  destruct (Nat.eqb_spec (nat_of_ascii c) 10) as [E|].
  { exfalso. apply Hl. by rewrite <- (ascii_nat_embedding c), E. }
  destruct (Nat.eqb_spec (nat_of_ascii c) 13) as [E|].
  { exfalso. apply Hc. by rewrite <- (ascii_nat_embedding c), E. }
  discriminate H.
Qed.

(** One character of an attribute value, escaped, is read as that
    character. *)
Lemma run_attr_char (c : ascii) t a k v (S : list Open) r :
  is_char c = true ->
  run (Some (mkState S (AttrValue t a k ET.dquote v) r false))
      (ET.escape_attrib (String c ""))
  = Some (mkState S (AttrValue t a k ET.dquote (snoc v c)) r false).
Proof.
  intros H. rewrite escape_attrib_char.
  destruct (Ascii.eqb_spec c "&") as [->|H1]; [reflexivity|].
  destruct (Ascii.eqb_spec c "<") as [->|H2]; [reflexivity|].
  destruct (Ascii.eqb_spec c ">") as [->|H3]; [reflexivity|].
  destruct (Ascii.eqb_spec c ET.dquote) as [->|H4]; [reflexivity|].
  destruct (Ascii.eqb_spec c ET.cr) as [->|H5]; [reflexivity|].
  destruct (Ascii.eqb_spec c ET.lf) as [->|H6]; [reflexivity|].
  destruct (Ascii.eqb_spec c ET.tab) as [->|H7]; [reflexivity|].
  cbn [run mbind option_bind]. rewrite feed_plain by by apply Ascii.eqb_neq.
  unfold step. cbn [mode].
  apply Ascii.eqb_neq in H1, H2, H4. rewrite H4, H2, H1.
  destruct (is_space c) eqn:Hsp.
  - by rewrite (space_is_space c Hsp H7 H6 H5).
  - by rewrite H.
Qed.

Lemma run_attr_value (v : string) t a k (S : list Open) r :
  Py.all is_char v = true ->
  forall v0,
    run (Some (mkState S (AttrValue t a k ET.dquote v0) r false)) (ET.escape_attrib v)
    = Some (mkState S (AttrValue t a k ET.dquote (v0 +:+ v)) r false).
Proof.
  induction v as [|c v IH]; intros H v0.
  - by rewrite append_nil_r.
  - simpl in H. apply andb_prop in H as [Hc Hv].
    change (String c v) with (String c "" +:+ v).
    rewrite escape_attrib_app, run_app, run_attr_char by done.
    rewrite IH by done. unfold snoc. by rewrite append_assoc.
Qed.

Lemma name_start_facts (c : ascii) :
  is_name_start c = true ->
  is_space c = false /\ Ascii.eqb c ">" = false /\ Ascii.eqb c "/" = false /\
  Ascii.eqb c ET.cr = false.
Proof.
  intros H. split_and!.
  - unfold is_space, is_name_start, code in *.
    destruct (Nat.eqb_spec (nat_of_ascii c) 32) as [E|]; [by rewrite E in H|].
    destruct (Nat.eqb_spec (nat_of_ascii c) 9) as [E|]; [by rewrite E in H|].
    destruct (Nat.eqb_spec (nat_of_ascii c) 10) as [E|]; [by rewrite E in H|].
    destruct (Nat.eqb_spec (nat_of_ascii c) 13) as [E|]; [by rewrite E in H|].
    done.
  - destruct (Ascii.eqb_spec c ">") as [->|]; [discriminate H|done].
  - destruct (Ascii.eqb_spec c "/") as [->|]; [discriminate H|done].
  - destruct (Ascii.eqb_spec c ET.cr) as [->|]; [discriminate H|done].
Qed.

Lemma valid_name_chars (t : string) :
  valid_name t = true ->
  exists c t', t = String c t' /\ is_name_start c = true /\ Py.all is_name_char t' = true.
Proof.
  destruct t as [|c t']; [done|]. simpl. intros [H1 H2]%andb_prop. by exists c, t'.
Qed.

Lemma getitem_fresh {V} (a : Py.dict V) (k : string) :
  k ∉ Py.keys a -> Py.getitem a k = None.
Proof.
  unfold Py.keys. induction a as [|[k' v'] a IH]; simpl; [done|].
  intros H. apply not_elem_of_cons in H as [Hk Ha].
  rewrite decide_False by done. by apply IH.
Qed.

Lemma run_step (S : list Open) m r (c : ascii) (s : string) st' :
  Ascii.eqb c ET.cr = false ->
  step (mkState S m r false) c = Some st' ->
  run (Some (mkState S m r false)) (String c s) = run (Some st') s.
Proof. intros Hc Hs. cbn [run mbind option_bind]. by rewrite feed_plain, Hs. Qed.

(** From the end of content to the end of the name of a start tag. *)
Lemma run_tag_start (t : string) (S : list Open) r :
  valid_name t = true ->
  run (Some (mkState S Content r false)) ("<" +:+ t)
  = Some (mkState S (tag_mode t []) r false).
Proof.
  intros (c & t' & -> & Hc & Ht)%valid_name_chars.
  destruct (name_start_facts c Hc) as (_ & _ & Hs & Hcr).
  change ("<" +:+ String c t') with (String "<" (String c t')).
  erewrite run_step; [|reflexivity|reflexivity]; unfold with_mode; cbn [stack root after_cr].
  erewrite run_step; [|done|].
  2:{ unfold step, with_mode. cbn [mode stack root after_cr]. by rewrite Hs, Hc. }
  by rewrite run_start_name.
Qed.

(** One attribute. *)
Lemma run_attr (t : string) (a : Py.dict string) (k v : string) (S : list Open) r :
  valid_name k = true -> Py.all is_char v = true -> k ∉ Py.keys a ->
  run (Some (mkState S (tag_mode t a) r false)) (ET.serialize_attr (k, v))
  = Some (mkState S (Attrs t (a ++ [(k, v)]) false) r false).
Proof.
  intros (c & k' & -> & Hc & Hk)%valid_name_chars Hv Hfresh.
  destruct (name_start_facts c Hc) as (Hsp & Hgt & Hsl & Hcr).
  unfold ET.serialize_attr. cbn [fst snd].
  change (" " +:+ String c k' +:+ "=" +:+ String ET.dquote (ET.escape_attrib v +:+ String ET.dquote ""))
    with (String " " (String c (k' +:+ (String "=" (String ET.dquote (ET.escape_attrib v +:+ String ET.dquote "")))))).
  erewrite run_step; [|reflexivity|].
  2:{ instantiate (1 := mkState S (Attrs t a true) r false). by destruct a. }
  erewrite run_step; [|done|].
  2:{ unfold step, with_mode, in_start_tag. cbn [mode stack root after_cr].
      by rewrite Hsp, Hgt, Hsl, Hc. }
  unfold with_mode; cbn [stack root after_cr].
  rewrite run_app, run_attr_name by done.
  erewrite run_step; [|reflexivity|reflexivity]; unfold with_mode; cbn [stack root after_cr].
  erewrite run_step; [|reflexivity|reflexivity]; unfold with_mode; cbn [stack root after_cr].
  rewrite run_app, run_attr_value by done.
  erewrite run_step; [|reflexivity|].
  2:{ unfold step, with_mode. cbn [mode stack root after_cr].
      change (Ascii.eqb ET.dquote ET.dquote) with true. cbn iota.
      by rewrite getitem_fresh. }
  cbn [run append]. reflexivity.
Qed.

Lemma tag_mode_snoc (t : string) (a : Py.dict string) (kv : string * string) :
  tag_mode t (a ++ [kv]) = Attrs t (a ++ [kv]) false.
Proof. by destruct a. Qed.

(** The attributes of a start tag. *)
Lemma run_attrs (t : string) (l : list (string * string)) (S : list Open) r :
  forall a,
    forallb attr_ok l = true -> NoDup (Py.keys (a ++ l)) ->
    run (Some (mkState S (tag_mode t a) r false))
        (ET.concat_strings (map ET.serialize_attr l))
    = Some (mkState S (tag_mode t (a ++ l)) r false).
Proof.
  induction l as [|[k v] l IH]; intros a Hok Hnd.
  - by rewrite app_nil_r.
  - simpl in Hok. apply andb_prop in Hok as [Hkv Hl].
    unfold attr_ok in Hkv. cbn [fst snd] in Hkv. apply andb_prop in Hkv as [Hk Hv].
    cbn [map ET.concat_strings foldr]. rewrite run_app.
    assert (k ∉ Py.keys a) as Hfresh.
    { unfold Py.keys in *. rewrite fmap_app in Hnd. apply NoDup_app in Hnd as (_ & Hd & _).
      intros Hin. apply (Hd k Hin). simpl. apply list_elem_of_here. }
    rewrite run_attr by done. rewrite <- tag_mode_snoc.
    change (foldr append "" (map ET.serialize_attr l))
      with (ET.concat_strings (map ET.serialize_attr l)).
    rewrite IH; [|done|by rewrite <- app_assoc].
    by rewrite <- app_assoc.
Qed.

(** The end of a start tag, of an element with content and of one without. *)
Lemma run_open (t : string) (a : Py.dict string) (S : list Open) r (s : string) :
  S <> [] \/ r = None ->
  run (Some (mkState S (tag_mode t a) r false)) (String ">" s)
  = run (Some (mkState (mkOpen t a "" [] :: S) Content r false)) s.
Proof.
  intros H. apply run_step; [reflexivity|].
  assert (XmlReader.open t a (mkState S (tag_mode t a) r false)
          = Some (mkState (mkOpen t a "" [] :: S) Content r false)) as Ho.
  { unfold XmlReader.open. cbn [stack root after_cr].
    destruct S; [|done]. destruct H as [?| ->]; done. }
  destruct a; exact Ho.
Qed.

Lemma run_empty_tag (t : string) (a : Py.dict string) (S : list Open) r :
  S <> [] \/ r = None ->
  run (Some (mkState S (tag_mode t a) r false)) " />"
  = deliver (ET.Elem t a None []) (mkState S Content r false).
Proof.
  intros H. change " />" with (String " " (String "/" (String ">" ""))).
  erewrite run_step; [|reflexivity|].
  2:{ instantiate (1 := mkState S (Attrs t a true) r false). by destruct a. }
  erewrite run_step; [|reflexivity|reflexivity]. unfold with_mode; cbn [stack root after_cr].
  cbn [run mbind option_bind]. rewrite feed_plain by reflexivity.
  unfold step, with_mode. cbn [mode stack root after_cr Ascii.eqb Bool.eqb].
  destruct S; [|done]. destruct H as [?| ->]; done.
Qed.

(** An end tag closes the innermost open element. *)
Lemma run_end_tag (t : string) a x c (S : list Open) r :
  valid_name t = true ->
  run (Some (mkState (mkOpen t a x c :: S) Content r false)) ("</" +:+ t +:+ ">")
  = deliver (ET.Elem t a (if Py.truthy x then Some x else None) c)
            (mkState S Content r false).
Proof.
  intros (d & t' & -> & Hd & Ht)%valid_name_chars.
  change ("</" +:+ String d t' +:+ ">") with (String "<" (String "/" (String d t' +:+ ">"))).
  erewrite run_step; [|reflexivity|reflexivity]. unfold with_mode; cbn [stack root after_cr].
  erewrite run_step; [|reflexivity|reflexivity]. unfold with_mode; cbn [stack root after_cr].
  rewrite run_app, run_end_name.
  2:{ simpl. by rewrite (name_start_char d Hd), Ht. }
  cbn [append run mbind option_bind]. rewrite feed_plain by reflexivity.
  unfold step, in_end_tag, close.
  cbn [mode stack root after_cr o_tag o_attrib o_text o_children].
  change (is_name_char ">") with false. change (is_space ">") with false.
  cbn [Ascii.eqb Bool.eqb]. by rewrite String.eqb_refl.
Qed.

Lemma Tree_ind_nested (P : ET.Tree -> Prop) :
  (forall t a x c, Forall P c -> P (ET.Elem t a x c)) -> forall e, P e.
Proof.
  intros H.
  exact (fix IH (e : ET.Tree) : P e :=
           match e with
           | ET.Elem t a x c =>
               H t a x c ((fix go (l : list ET.Tree) : Forall P l :=
                             match l with
                             | [] => @List.Forall_nil _ P
                             | y :: l' => @List.Forall_cons _ P y l' (IH y) (go l')
                             end) c)
           end).
Qed.

Lemma serialize_eq t a x c :
  ET.serialize (ET.Elem t a x c) =
  "<" +:+ t +:+ ET.concat_strings (map ET.serialize_attr (Py.items a)) +:+
  (if ET.text_truthy x || negb (bool_decide (c = []))
   then ">" +:+ (match x with Some s => ET.escape_cdata s | None => "" end) +:+
        ET.concat_strings (map ET.serialize c) +:+ "</" +:+ t +:+ ">"
   else " />").
Proof. reflexivity. Qed.

Lemma deliver_child e o (S : list Open) r :
  deliver e (mkState (o :: S) Content r false)
  = Some (mkState (mkOpen (o_tag o) (o_attrib o) (o_text o) (o_children o ++ [e]) :: S)
                  Content r false).
Proof. reflexivity. Qed.

(** The children of an element, one after the other. *)
Lemma run_children (c : list ET.Tree) :
  Forall (fun e => readable e = true -> forall (S : list Open) r,
            S <> [] \/ r = None ->
            run (Some (mkState S Content r false)) (ET.serialize e)
            = deliver (normalize e) (mkState S Content r false)) c ->
  forallb readable c = true ->
  forall t a x k (S : list Open) r,
    run (Some (mkState (mkOpen t a x k :: S) Content r false))
        (ET.concat_strings (map ET.serialize c))
    = Some (mkState (mkOpen t a x (k ++ map normalize c) :: S) Content r false).
Proof.
  induction 1 as [|e c He _ IH]; intros Hr t a x k S r.
  - by rewrite app_nil_r.
  - simpl in Hr. apply andb_prop in Hr as [Hre Hrc].
    cbn [map ET.concat_strings foldr]. rewrite run_app.
    rewrite He; [|done|by left]. rewrite deliver_child.
    cbn [o_tag o_attrib o_text o_children].
    change (foldr append "" (map ET.serialize c))
      with (ET.concat_strings (map ET.serialize c)).
    rewrite IH by done. by rewrite <- app_assoc.
Qed.

(** A readable tree, serialized, is read as the tree itself, an empty text
    being no text. *)
Lemma run_serialize (e : ET.Tree) :
  readable e = true ->
  forall (S : list Open) r,
    S <> [] \/ r = None ->
    run (Some (mkState S Content r false)) (ET.serialize e)
    = deliver (normalize e) (mkState S Content r false).
Proof.
  induction e as [t a x c IH] using Tree_ind_nested. intros Hr S r HS.
  cbn [readable] in Hr.
  apply andb_prop in Hr as [Hr Hc]. apply andb_prop in Hr as [Hr Hx].
  apply andb_prop in Hr as [Hr Hnd]. apply andb_prop in Hr as [Ht Ha].
  apply bool_decide_eq_true in Hnd.
  rewrite serialize_eq. rewrite <- append_assoc, run_app, run_tag_start by done.
  rewrite run_app. unfold Py.items. rewrite (run_attrs t a S r []) by done.
  cbn [app]. cbn [normalize].
  destruct (ET.text_truthy x || negb (bool_decide (c = []))) eqn:Hcontent.
  - change (">" +:+ ?s) with (String ">" s). rewrite run_open by done.
    rewrite run_app.
    assert (run (Some (mkState (mkOpen t a "" [] :: S) Content r false))
                (match x with Some s => ET.escape_cdata s | None => "" end)
            = Some (mkState (mkOpen t a (default "" x) [] :: S) Content r false)) as ->.
    { destruct x as [s|]; [|done]. by rewrite run_text. }
    rewrite run_app, (run_children c IH Hc). cbn [app].
    rewrite run_end_tag by done. repeat f_equal.
    destruct x as [[|? ?]|]; reflexivity.
  - apply orb_false_elim in Hcontent as [Hx0 Hc0].
    apply negb_false_iff, bool_decide_eq_true in Hc0. subst c.
    rewrite Hx0. by rewrite run_empty_tag.
Qed.

(** Reading what [ET.tostring] wrote. *)
Lemma read_tostring (e : ET.Tree) :
  readable e = true -> read (ET.tostring e) = Some (normalize e).
Proof.
  intros H. unfold read, ET.tostring, XmlReader.initial.
  rewrite run_serialize; [|done|by right]. reflexivity.
Qed.

(** ** The round trip of the shape document *)

Lemma digit_is_char (c : ascii) : Py.isdigit c = true -> is_char c = true.
Proof.
  unfold Py.isdigit, is_char, code. intros [H1 H2]%andb_prop.
  apply Nat.leb_le in H1. apply orb_true_intro. left.
  apply orb_true_intro. left. apply orb_true_intro. left. apply Nat.leb_le. lia.
Qed.

Lemma str_is_char (n : Z) : Py.all is_char (Py.str n) = true.
Proof.
  assert (forall d, Py.all is_char (NilZero.string_of_uint d) = true) as H.
  { intros d.
    assert (NilZero.string_of_uint d = "0" \/
            NilZero.string_of_uint d = NilEmpty.string_of_uint d) as [->| ->];
      [destruct d; auto|done|].
    eapply all_impl; [apply digit_is_char|apply string_of_uint_digits]. }
  unfold Py.str. destruct (Z.to_int n); simpl; apply H.
Qed.

Lemma text_char_is_char (s : string) :
  Py.all text_char s = true -> Py.all is_char s = true.
Proof. apply all_impl. unfold text_char. by intros c [? _]%andb_prop. Qed.

Lemma readable_intro t a x c :
  valid_name t = true -> forallb attr_ok a = true -> NoDup (Py.keys a) ->
  match x with Some s => Py.all text_char s = true | None => True end ->
  forallb readable c = true ->
  readable (ET.Elem t a x c) = true.
Proof.
  intros Ht Ha Hn Hx Hc. cbn [readable]. rewrite Ht, Ha, Hc.
  rewrite bool_decide_eq_true_2 by done. by destruct x as [s|]; [rewrite Hx|].
Qed.

Ltac nodup_keys := refine (bool_decide_unpack _ _); vm_compute; exact I.

Lemma readable_point (p : Z * Z) : readable (point_tree p) = true.
Proof.
  unfold point_tree. apply readable_intro; try done.
  - unfold attr_ok; cbn [forallb fst snd]. by rewrite !str_is_char.
  - nodup_keys.
Qed.

Lemma readable_shape_tree (s : string) (w h : Z) :
  Py.all text_char s = true -> readable (shape_tree s w h) = true.
Proof.
  intros Hs. pose proof (text_char_is_char s Hs) as Hc.
  unfold shape_tree.
  apply readable_intro; [done|done|nodup_keys|done|].
  apply forallb_forall. intros e He. simpl in He.
  destruct He as [<-|[<-|[<-|[<-|[<-|[]]]]]].
  - apply readable_intro; [done|done|constructor|done|done].
  - apply readable_intro; try done; [constructor|]. by rewrite all_app, Hs.
  - apply readable_intro; try done; [constructor|].
    apply forallb_forall. intros e' He'. simpl in He'.
    repeat (destruct He' as [<-|He']; [apply readable_point|]). destruct He'.
  - apply readable_intro; try done. nodup_keys.
  - apply readable_intro; try done; [constructor|]. cbn [forallb]. rewrite andb_true_r.
    apply readable_intro; try done.
    + unfold attr_ok; cbn [forallb fst snd]. by rewrite !str_is_char, all_app, Hc.
    + nodup_keys.
Qed.

Lemma normalize_point (p : Z * Z) : normalize (point_tree p) = point_tree p.
Proof. reflexivity. Qed.

Lemma findall_points (l : list (Z * Z)) :
  ET.findall "point" (ET.Elem "connections" [] None (map point_tree l)) = map point_tree l.
Proof.
  unfold ET.findall. cbn [ET.tree_children].
  induction l as [|p l IH]; [done|]. simpl. by rewrite IH.
Qed.

Lemma shape_fields_tree (s : string) (w h : Z) :
  shape_fields (normalize (shape_tree s w h)) = Some (expected_fields s w h).
Proof.
  unfold shape_fields, read_points, expected_fields, int_attribute.
  assert (ET.findtext "name" (normalize (shape_tree s w h)) = Some s) as ->.
  { by destruct s. }
  assert (ET.findtext "icon" (normalize (shape_tree s w h)) = Some (s +:+ ".png")) as ->.
  { by destruct s. }
  cbn [mbind option_bind].
  assert (ET.find "connections" (normalize (shape_tree s w h))
          = Some (ET.Elem "connections" [] None (map point_tree (connection_points w h)))) as ->.
  { by destruct s. }
  cbn [mbind option_bind]. rewrite findall_points, read_points_trees.
  cbn [mbind option_bind].
  assert (ET.find "aspectratio" (normalize (shape_tree s w h)) ≫= ET.get "type"
          = Some "fixed") as ->.
  { by destruct s. }
  cbn [mbind option_bind].
  assert (ET.find "svg:svg" (normalize (shape_tree s w h))
          = Some (ET.Elem "svg:svg" [] None
                    [ET.Elem "svg:image"
                       [("xlink:href", s +:+ ".svg"); ("x", "0"); ("y", "0");
                        ("width", Py.str w); ("height", Py.str h)] None []])) as ->.
  { by destruct s. }
  cbn [mbind option_bind].
  change (ET.find "svg:image" _) with
    (Some (ET.Elem "svg:image"
                       [("xlink:href", s +:+ ".svg"); ("x", "0"); ("y", "0");
                        ("width", Py.str w); ("height", Py.str h)] None [])).
  cbn [mbind option_bind].
  change (ET.get "x" _) with (Some "0").
  change (ET.get "y" _) with (Some "0").
  change (ET.get "width" _) with (Some (Py.str w)).
  change (ET.get "height" _) with (Some (Py.str h)).
  change (ET.get "xlink:href" _) with (Some (s +:+ ".svg")).
  cbn [mbind option_bind]. rewrite !int_str. cbn [mbind option_bind].
  change (Py.int "0") with (Some 0). reflexivity.
Qed.

(** C3, as the code has it: for every path whose stem is made of characters
    that character data carries through, and for every size, parsing the
    serialized shape gives back the stem as the name, the icon file name,
    the nine connection points, the aspect ratio ["fixed"], and the image
    at (0,0) with the given width and height and the link to the copy of
    the source. *)
Theorem shape_round_trip_readable (svg_path : PurePath.Path) (width height : Z) :
  Py.all text_char (PurePath.stem svg_path) = true ->
  exists xshape,
    ET.run (build_shape svg_path width height) = Some xshape /\
    parse_shape (ET.tostring xshape)
      = Some (mkShapeFields
                (PurePath.stem svg_path)
                (PurePath.stem svg_path +:+ ".png")
                [(0, 0); (0, width / 2); (0, width); (height / 2, 0); (height, 0);
                 (width / 2, height); (width / 2, height / 2); (width, height / 2);
                 (width, height)]
                "fixed" 0 0 width height
                (PurePath.stem svg_path +:+ ".svg")).
Proof.
  intros Hs. exists (shape_tree (PurePath.stem svg_path) width height).
  split; [apply build_shape_tree|].
  unfold parse_shape. rewrite read_tostring by by apply readable_shape_tree.
  cbn [mbind option_bind]. apply shape_fields_tree.
Qed.

Lemma shape_round_trip_readable_demo :
  Py.all text_char (PurePath.stem (PurePath.of_string "icons/a<b&c.svg")) = true /\
  exists xshape,
    ET.run (build_shape (PurePath.of_string "icons/a<b&c.svg") 10 7) = Some xshape /\
    parse_shape (ET.tostring xshape)
      = Some (mkShapeFields "a<b&c" "a<b&c.png"
                [(0, 0); (0, 5); (0, 10); (3, 0); (7, 0); (5, 7); (5, 3); (10, 3); (10, 7)]
                "fixed" 0 0 10 7 "a<b&c.svg").
Proof.
  split; [reflexivity|].
  apply (shape_round_trip_readable (PurePath.of_string "icons/a<b&c.svg") 10 7).
  reflexivity.
Defined.

(** C3, as the design document words it, fails: the stem of a file name
    with a carriage return in it is read back with a line feed in its
    place. *)
Lemma shape_round_trip_fails : ~ shape_round_trip.
Proof.
  intros H. destruct (H cr_path 22 22) as (xshape & Hx & Hp).
  rewrite build_shape_tree in Hx. injection Hx as <-.
  assert (shape_name <$> parse_shape (ET.tostring (shape_tree (PurePath.stem cr_path) 22 22))
          = Some ("a" +:+ String ET.lf "b")) as E by (vm_compute; reflexivity).
  rewrite Hp in E. vm_compute in E. discriminate E.
Qed.
